(** * Givebutter microservice: sync-and-reconciliation pipeline

    A shallow embedding of [main_fixed_recurring.py]: JSON payloads, the
    timestamped snapshot store on a GCS bucket, the upstream poller with its
    mock-data fallback, the summary generator, the donor-data endpoint and
    the sync orchestrator with its global state. *)

From Stdlib Require Import ZArith QArith List String Ascii Lia.
From stdpp Require Import base gmap strings list pretty.

Import ListNotations.
Open Scope string_scope.

(* ================================================================== *)
(** ** JSON values as Python sees them after [json.loads] *)

(** JSON numbers are integers (the payloads of this service carry integer
    cents and integer counts); [JReal q] is a Python float, recorded as the
    exact rational it rounds (the float rounding itself is not modelled). *)
Set Warnings "-register-all,-abstract-large-number".
Inductive json : Type :=
| JNull
| JBool (b : bool)
| JInt (z : Z)
| JReal (q : Q)
| JStr (s : string)
| JArr (l : list json)
| JObj (fields : list (string * json)).

(** Python truthiness: [None], [False], [0], [""], [[]] and [{}] are falsy. *)
Definition py_truthy (v : json) : bool :=
  match v with
  | JNull => false
  | JBool b => b
  | JInt z => negb (Z.eqb z 0)
  | JReal q => negb (Qeq_bool q 0)
  | JStr s => negb (String.eqb s "")
  | JArr l => negb (Nat.eqb (length l) 0)
  | JObj fs => negb (Nat.eqb (length fs) 0)
  end.

Fixpoint dict_lookup (k : string) (fs : list (string * json)) : option json :=
  match fs with
  | [] => None
  | (k', v) :: fs' => if String.eqb k k' then Some v else dict_lookup k fs'
  end.

Definition py_type_name (v : json) : string :=
  match v with
  | JNull => "NoneType" | JBool _ => "bool" | JInt _ => "int" | JReal _ => "float"
  | JStr _ => "str" | JArr _ => "list" | JObj _ => "dict"
  end.

(** Python exceptions are carried by their [str(e)] message. *)
Inductive res (A : Type) : Type :=
| Ok (a : A)
| Exc (msg : string).
Arguments Ok {A} a.
Arguments Exc {A} msg.

(** [d.get(k, default)]: only a dict has [.get]; anything else raises
    [AttributeError]. *)
Definition py_get (d : json) (k : string) (default : json) : res json :=
  match d with
  | JObj fs => Ok (match dict_lookup k fs with Some v => v | None => default end)
  | _ => Exc ("'" +:+ py_type_name d +:+ "' object has no attribute 'get'")
  end.

(** [str(v)] for the scalar values an id field holds; containers print
    their repr (string escaping inside containers is not modelled). *)
Fixpoint py_repr (v : json) : string :=
  match v with
  | JNull => "None"
  | JBool true => "True"
  | JBool false => "False"
  | JInt z => pretty z
  | JReal q => pretty (Qnum q) +:+ "/" +:+ pretty (Npos (Qden q))
  | JStr s => "'" +:+ s +:+ "'"
  | JArr l =>
      "[" +:+ String.concat ", " (map py_repr l) +:+ "]"
  | JObj fs =>
      "{" +:+ String.concat ", " (map (fun kv => "'" +:+ fst kv +:+ "': " +:+ py_repr (snd kv)) fs) +:+ "}"
  end.

Definition py_str (v : json) : string :=
  match v with
  | JStr s => s
  | _ => py_repr v
  end.

(* ================================================================== *)
(** ** The global state and the effect monad *)

(** A blob's content: what [json.dumps] wrote (the dumps/loads round trip is
    the identity on [json]), or bytes that [json.loads] rejects. *)
Inductive blob : Type :=
| BJson (j : json)
| BRaw (bytes : string).

(** [datetime.now(timezone.utc)] at second resolution. *)
Record timestamp := mkTs {
  ts_year : nat; ts_month : nat; ts_day : nat;
  ts_hour : nat; ts_minute : nat; ts_second : nat }.

(** Effects the orchestration performs, recorded as a ghost trace. *)
Inductive effect : Type :=
| EFetch (endpoint : string)
| EPut (blob_name : string).

(** Module globals [sync_status], [sync_errors], [last_sync_time], plus the
    bucket's objects and the ghost trace. *)
Record state := mkState {
  sync_status : string;
  sync_errors : list string;
  last_sync_time : option timestamp;
  objects : gmap string blob;
  trace : list effect }.

(** Read-only world: configuration, the wall clock and the behaviour of the
    external services (storage faults, upstream outcome per endpoint). *)
Record env := mkEnv {
  STORAGE_BUCKET : string;
  GIVEBUTTER_API_KEY : option string;
  clock : timestamp;
  write_fault : string -> option string;
  read_fault : option string;
  upstream : string -> res (list json) }.

Definition M (A : Type) : Type := env -> state -> res A * state.

Definition ret {A} (a : A) : M A := fun _ s => (Ok a, s).
Definition raise {A} (msg : string) : M A := fun _ s => (Exc msg, s).
Definition bind {A B} (m : M A) (k : A -> M B) : M B :=
  fun e s => match m e s with
             | (Ok a, s') => k a e s'
             | (Exc msg, s') => (Exc msg, s')
             end.
(** [try: m except Exception as e: h(str(e))] *)
Definition catch {A} (m : M A) (h : string -> M A) : M A :=
  fun e s => match m e s with
             | (Ok a, s') => (Ok a, s')
             | (Exc msg, s') => h msg e s'
             end.
Definition get_env : M env := fun e s => (Ok e, s).
Definition get_state : M state := fun _ s => (Ok s, s).
Definition modify (f : state -> state) : M unit := fun _ s => (Ok tt, f s).
Definition lift {A} (r : res A) : M A :=
  match r with Ok a => ret a | Exc m => raise m end.

Global Instance M_ret : MRet M := @ret.
Global Instance M_bind : MBind M := fun A B k m => bind m k.

Notation "'let*' x ':=' m 'in' k" := (bind m (fun x => k))
  (at level 200, x name, m at level 100, k at level 200).

Definition set_status (st : string) : M unit :=
  modify (fun s => mkState st (sync_errors s) (last_sync_time s) (objects s) (trace s)).
Definition set_errors (errs : list string) : M unit :=
  modify (fun s => mkState (sync_status s) errs (last_sync_time s) (objects s) (trace s)).
(** [sync_errors.append(msg)] *)
Definition append_error (msg : string) : M unit :=
  modify (fun s => mkState (sync_status s) (sync_errors s ++ [msg]) (last_sync_time s) (objects s) (trace s)).
Definition set_last_sync (t : timestamp) : M unit :=
  modify (fun s => mkState (sync_status s) (sync_errors s) (Some t) (objects s) (trace s)).
Definition log_effect (ef : effect) : M unit :=
  modify (fun s => mkState (sync_status s) (sync_errors s) (last_sync_time s) (objects s) (trace s ++ [ef])).

(* ================================================================== *)
(** ** Snapshot store: [store_data_in_gcs] and [get_latest_data_from_gcs] *)

Definition digit_char (d : nat) : ascii := ascii_of_nat (48 + d).

(** The [k] low decimal digits of [n], zero-padded (strftime's [%m], [%d], ...). *)
Fixpoint pad (k n : nat) : string :=
  match k with
  | 0 => ""
  | S k' => pad k' (n / 10) +:+ String (digit_char (n mod 10)) ""
  end.

(** [strftime('%Y%m%d_%H%M%S')] *)
Definition strftime_key (t : timestamp) : string :=
  pad 4 (ts_year t) +:+ pad 2 (ts_month t) +:+ pad 2 (ts_day t) +:+ "_" +:+
  pad 2 (ts_hour t) +:+ pad 2 (ts_minute t) +:+ pad 2 (ts_second t).

(** A value [datetime] can hold. *)
Definition valid_ts (t : timestamp) : Prop :=
  1 <= ts_year t <= 9999 /\ 1 <= ts_month t <= 12 /\ 1 <= ts_day t <= 31 /\
  ts_hour t < 24 /\ ts_minute t < 60 /\ ts_second t < 60.

(** [f"givebutter-data/{integration_id}/{data_type}/{timestamp}.json"] *)
Definition blob_name (integration_id data_type : string) (t : timestamp) : string :=
  "givebutter-data/" +:+ integration_id +:+ "/" +:+ data_type +:+ "/" +:+
  strftime_key t +:+ ".json".

(** Bucket operations; each raises when the storage service faults. *)
Definition check_read : M unit :=
  let* e := get_env in
  match read_fault e with Some msg => raise msg | None => mret tt end.

(** [bucket.list_blobs(prefix=...)] *)
Definition list_blobs (prefix : string) : M (list string) :=
  check_read;;
  let* s := get_state in
  mret (filter (fun k => String.prefix prefix k = true) (map fst (map_to_list (objects s)))).

Definition blob_exists (name : string) : M bool :=
  check_read;;
  let* s := get_state in
  mret (bool_decide (is_Some (objects s !! name))).

(** [json.loads(blob.download_as_text())] *)
Definition download_json (name : string) : M json :=
  check_read;;
  let* s := get_state in
  match objects s !! name with
  | None => raise ("404 No such object: " +:+ name)
  | Some (BRaw _) => raise "Expecting value: line 1 column 1 (char 0)"
  | Some (BJson j) => mret j
  end.

(** [blob.upload_from_string(json.dumps(data))] *)
Definition upload (name : string) (data : json) : M unit :=
  log_effect (EPut name);;
  let* e := get_env in
  match write_fault e name with
  | Some msg => raise msg
  | None => modify (fun s => mkState (sync_status s) (sync_errors s) (last_sync_time s)
                                     (<[name := BJson data]> (objects s)) (trace s))
  end.

(** [store_data_in_gcs]: its [except] logs and re-raises, so it is the
    identity on failures. *)
Definition store_data_in_gcs (data_type : string) (data : json)
    (integration_id : string) : M unit :=
  let* e := get_env in
  upload (blob_name integration_id data_type (clock e)) data.

(** [max(blobs, key=lambda b: b.name)]: the first element whose name no later
    element exceeds. *)
Fixpoint max_name (cur : string) (l : list string) : string :=
  match l with
  | [] => cur
  | x :: l' => max_name (if String.ltb cur x then x else cur) l'
  end.

(** [int(s)] for a string: only plain ASCII digit strings are modelled as
    parsing. *)
Fixpoint digits_value (s : string) (acc : Z) : option Z :=
  match s with
  | EmptyString => Some acc
  | String c s' =>
      let n := nat_of_ascii c in
      if (48 <=? n)%nat && (n <=? 57)%nat
      then digits_value s' (acc * 10 + Z.of_nat (n - 48))%Z else None
  end.

Fixpoint str_repeat (n : nat) (s : string) : string :=
  match n with 0 => "" | S n' => s +:+ str_repeat n' s end.

(** [int(v * 100)] *)
Definition int_times_100 (v : json) : res json :=
  match v with
  | JInt z => Ok (JInt (z * 100))
  | JBool b => Ok (JInt (if b then 100 else 0))
  | JReal q => let q' := Qmult q (100 # 1) in Ok (JInt (Z.quot (Qnum q') (Zpos (Qden q'))))
  | JStr s =>
      match s, digits_value (str_repeat 100 s) 0 with
      | EmptyString, _ => Exc "invalid literal for int() with base 10: ''"
      | _, Some z => Ok (JInt z)
      | _, None => Exc "invalid literal for int() with base 10"
      end
  | _ => Exc "unsupported operand type(s) for *"
  end.

Definition is_list (v : json) : bool :=
  match v with JArr _ => true | _ => false end.

(** The field renaming of the production read path. *)
Definition production_transform (data_type : string) (data : json) : res (option json) :=
  if String.eqb data_type "summary" then
    match py_get data "total_donors" (JInt 0), py_get data "total_donations" (JInt 0),
          py_get data "total_amount" (JInt 0), py_get data "recurring_donors" (JInt 0),
          py_get data "last_sync" JNull, py_get data "sync_status" (JStr "success") with
    | Ok d, Ok tx, Ok amt, Ok rec, Ok ls, Ok st =>
        match int_times_100 amt with
        | Ok cents => Ok (Some (JObj [("total_donors", d); ("total_transactions", tx);
                                      ("total_amount_cents", cents);
                                      ("total_amount_dollars", amt);
                                      ("active_recurring_plans", rec);
                                      ("last_updated", ls); ("sync_status", st)]))
        | Exc m => Exc m
        end
    | Exc m, _, _, _, _, _ => Exc m
    | _, Exc m, _, _, _, _ => Exc m
    | _, _, Exc m, _, _, _ => Exc m
    | _, _, _, Exc m, _, _ => Exc m
    | _, _, _, _, Exc m, _ => Exc m
    | _, _, _, _, _, Exc m => Exc m
    end
  else
    match py_get data data_type (JArr []) with
    | Ok v => Ok (Some (if is_list v then JObj [("data", v)] else v))
    | Exc m => Exc m
    end.

Definition production_types : list string := ["summary"; "contacts"; "transactions"].

Definition production_path (bucket data_type : string) : bool :=
  String.eqb bucket "wlmn-donor-data" && bool_decide (data_type ∈ production_types).

(** [get_latest_data_from_gcs] *)
Definition get_latest_data_from_gcs (data_type : string) (integration_id : string)
    : M (option json) :=
  catch (A := option json) (
    let* e := get_env in
    if production_path (STORAGE_BUCKET e) data_type then
      let name := "donor-sync/production/" +:+ data_type +:+ "_data.json" in
      catch (A := option json) (
        let* present := blob_exists name in
        if present then
          let* data := download_json name in
          lift (production_transform data_type data)
        else mret None)
      (fun _ => mret None)
    else
      let prefix := "givebutter-data/" +:+ integration_id +:+ "/" +:+ data_type +:+ "/" in
      let* blobs := list_blobs prefix in
      match blobs with
      | [] => mret None
      | b :: bs =>
          let* data := download_json (max_name b bs) in
          mret (Some data)
      end)
  (fun _ => mret None).

(* ================================================================== *)
(** ** Upstream client: [poll_givebutter_api] and [generate_mock_data] *)

(** Python's [sub in s] on strings. *)
Fixpoint str_contains (sub s : string) : bool :=
  String.prefix sub s ||
  match s with EmptyString => false | String _ s' => str_contains sub s' end.

(** [datetime.now(timezone.utc).isoformat()] with zero microseconds. *)
Definition isoformat (t : timestamp) : string :=
  pad 4 (ts_year t) +:+ "-" +:+ pad 2 (ts_month t) +:+ "-" +:+ pad 2 (ts_day t) +:+ "T" +:+
  pad 2 (ts_hour t) +:+ ":" +:+ pad 2 (ts_minute t) +:+ ":" +:+ pad 2 (ts_second t) +:+ "+00:00".

Definition meta (total page per_page : Z) : json :=
  JObj [("total", JInt total); ("page", JInt page); ("per_page", JInt per_page)].

Definition envelope (data : list json) (m : json) : json :=
  JObj [("data", JArr data); ("meta", m)].

Definition mock_contact (now : string) (i : nat) : json :=
  JObj [("id", JStr ("contact_" +:+ pretty (S i)));
        ("first_name", JStr "Donor");
        ("last_name", JStr (pretty (S i)));
        ("email", JStr ("donor" +:+ pretty (S i) +:+ "@example.com"));
        ("phone", JStr ("+1234567" +:+ pad 3 i));
        ("total_donated", JInt (Z.of_nat (S i) * 5000));
        ("donation_count", JInt (Z.of_nat (i mod 5) + 1));
        ("created_at", JStr now)].

Definition mock_transaction (now : string) (i : nat) : json :=
  JObj [("id", JStr ("txn_" +:+ pretty i));
        ("amount", JInt 10000);
        ("fee", JInt 329);
        ("net_amount", JInt 9671);
        ("status", JStr "succeeded");
        ("method", JStr "card");
        ("contact_id", JStr ("contact_" +:+ pretty (i mod 168 + 1)));
        ("campaign_id", JStr "campaign_main");
        ("created_at", JStr now)].

Definition mock_plan (now : string) (i : nat) : json :=
  JObj [("id", JStr ("plan_" +:+ pretty (S i)));
        ("amount", JInt 2500);
        ("interval", JStr "monthly");
        ("status", JStr "active");
        ("contact_id", JStr ("contact_" +:+ pretty (S i)));
        ("created_at", JStr now)].

Definition mock_campaign (now : string) : json :=
  JObj [("id", JStr "campaign_main");
        ("title", JStr "WLMN Annual Fundraiser");
        ("goal", JInt 5000000);
        ("raised", JInt 1242000);
        ("status", JStr "active");
        ("created_at", JStr now)].

(** [generate_mock_data(endpoint)] *)
Definition generate_mock_data (t : timestamp) (endpoint : string) : json :=
  let now := isoformat t in
  if str_contains "contacts" endpoint then
    envelope (map (mock_contact now) (seq 0 168)) (meta 168 1 168)
  else if str_contains "transactions" endpoint then
    envelope (map (mock_transaction now) (seq 0 186)) (meta 186 1 186)
  else if str_contains "plans" endpoint then
    envelope (map (mock_plan now) (seq 0 78)) (meta 78 1 100)
  else if str_contains "campaigns" endpoint then
    envelope [mock_campaign now] (meta 1 1 100)
  else envelope [] (meta 0 1 100).

(** [poll_givebutter_api(endpoint)].  The [while page <= total_pages] loop
    over the HTTP pages is the external service's behaviour: [upstream e
    endpoint] is its outcome, the concatenated [data] of all pages or the
    first exception the loop raised ([raise_for_status], a timeout, a
    transport error, a malformed body). *)
Definition poll_givebutter_api (endpoint : string) : M json :=
  let* e := get_env in
  log_effect (EFetch endpoint);;
  match GIVEBUTTER_API_KEY e with
  | None | Some EmptyString => mret (generate_mock_data (clock e) endpoint)
  | Some _ =>
      catch (A := json)
        (let* all_data := lift (upstream e endpoint) in
         let n := Z.of_nat (length all_data) in
         mret (envelope all_data (meta n 1 n)))
        (fun msg =>
           append_error ("API Error (" +:+ endpoint +:+ "): " +:+ msg);;
           mret (generate_mock_data (clock e) endpoint))
  end.

(* ================================================================== *)
(** ** Python built-ins the reconciler relies on *)

(** [for x in v]: a list yields its items, a dict its keys, a string its
    characters; anything else is not iterable. *)
Fixpoint str_chars (s : string) : list json :=
  match s with EmptyString => [] | String c s' => JStr (String c "") :: str_chars s' end.

Definition py_iter (v : json) : res (list json) :=
  match v with
  | JArr l => Ok l
  | JObj fs => Ok (map (fun kv => JStr (fst kv)) fs)
  | JStr s => Ok (str_chars s)
  | _ => Exc ("'" +:+ py_type_name v +:+ "' object is not iterable")
  end.

(** [len(v)] *)
Definition py_len (v : json) : res Z :=
  match v with
  | JArr l => Ok (Z.of_nat (length l))
  | JObj fs => Ok (Z.of_nat (length fs))
  | JStr s => Ok (Z.of_nat (String.length s))
  | _ => Exc ("object of type '" +:+ py_type_name v +:+ "' has no len()")
  end.

(** Equality of hashable values, as a Python [set] compares them
    ([True == 1], [1 == 1.0]); lists and dicts are unhashable. *)
Definition py_num (v : json) : option Q :=
  match v with
  | JBool b => Some (if b then 1 else 0)%Q
  | JInt z => Some (inject_Z z)
  | JReal q => Some q
  | _ => None
  end.

Definition py_hash_eq (a b : json) : bool :=
  match a, b with
  | JNull, JNull => true
  | JStr x, JStr y => String.eqb x y
  | _, _ => match py_num a, py_num b with
            | Some x, Some y => Qeq_bool x y
            | _, _ => false
            end
  end.

Definition hashable (v : json) : bool :=
  match v with JArr _ | JObj _ => false | _ => true end.

(** [s.add(v)]: sets keep the first inserted representative. *)
Definition py_set_add (v : json) (set : list json) : res (list json) :=
  if hashable v then
    if existsb (py_hash_eq v) set then Ok set else Ok (set ++ [v])%list
  else Exc ("unhashable type: '" +:+ py_type_name v +:+ "'").

(** [a + b] on numbers. *)
Definition py_add (a b : json) : res json :=
  match a, b with
  | JReal _, _ | _, JReal _ =>
      match py_num a, py_num b with
      | Some x, Some y => Ok (JReal (x + y)%Q)
      | _, _ => Exc "unsupported operand type(s) for +"
      end
  | (JInt _ | JBool _), (JInt _ | JBool _) =>
      match py_num a, py_num b with
      | Some x, Some y => Ok (JInt (Qnum x * Zpos (Qden y) + Qnum y * Zpos (Qden x))%Z)
      | _, _ => Exc "unsupported operand type(s) for +"
      end
  | _, _ => Exc ("unsupported operand type(s) for +: '" +:+ py_type_name a +:+ "' and '" +:+ py_type_name b +:+ "'")
  end.

(** [sum(x.get(k, 0) for x in items)] *)
Fixpoint sum_field_go (k : string) (acc : json) (items : list json) : res json :=
  match items with
  | [] => Ok acc
  | x :: rest =>
      match py_get x k (JInt 0) with
      | Exc m => Exc m
      | Ok v => match py_add acc v with
                | Exc m => Exc m
                | Ok acc' => sum_field_go k acc' rest
                end
      end
  end.
Definition sum_field (k : string) (items : list json) : res json :=
  sum_field_go k (JInt 0) items.

(* ================================================================== *)
(** ** Reconciler: [generate_donor_summary] *)

(** [x.get('data', []) if x else []] for a snapshot read from the store. *)
Definition snapshot_data (x : option json) : res json :=
  match x with
  | Some v => if py_truthy v then py_get v "data" (JArr []) else Ok (JArr [])
  | None => Ok (JArr [])
  end.

(** [for item in items: if item.get(field): donor_ids.add(item[field])] *)
Fixpoint add_ids (field : string) (items : list json) (donor_ids : list json)
    : res (list json) :=
  match items with
  | [] => Ok donor_ids
  | item :: rest =>
      match py_get item field JNull with
      | Exc m => Exc m
      | Ok v =>
          if py_truthy v then
            match py_set_add v donor_ids with
            | Exc m => Exc m
            | Ok ids => add_ids field rest ids
            end
          else add_ids field rest donor_ids
      end
  end.

(** [len([p for p in plans if p.get('status') == 'active'])] *)
Fixpoint count_active (plans : list json) : res Z :=
  match plans with
  | [] => Ok 0%Z
  | p :: rest =>
      match py_get p "status" JNull, count_active rest with
      | Exc m, _ => Exc m
      | Ok _, Exc m => Exc m
      | Ok st, Ok n => Ok (if py_hash_eq st (JStr "active") then n + 1 else n)%Z
      end
  end.

Record summary_stats := mkStats {
  total_donors : Z;
  total_transactions : Z;
  total_amount : json;
  active_plans : Z }.

(** The statistics block of [generate_donor_summary], in the order the
    code evaluates it. *)
Definition summary_core (contacts_data transactions_data plans_data : option json)
    : res summary_stats :=
  match snapshot_data contacts_data, snapshot_data transactions_data,
        snapshot_data plans_data with
  | Ok contacts, Ok transactions, Ok plans =>
      match py_iter contacts with
      | Exc m => Exc m
      | Ok cs =>
      match add_ids "id" cs [] with
      | Exc m => Exc m
      | Ok ids1 =>
      match py_iter transactions with
      | Exc m => Exc m
      | Ok ts =>
      match add_ids "contact_id" ts ids1 with
      | Exc m => Exc m
      | Ok donor_ids =>
      match py_len transactions with
      | Exc m => Exc m
      | Ok n_tx =>
      match sum_field "amount" ts with
      | Exc m => Exc m
      | Ok amount =>
      match py_iter plans with
      | Exc m => Exc m
      | Ok ps =>
      match count_active ps with
      | Exc m => Exc m
      | Ok active =>
          Ok (mkStats (Z.of_nat (length donor_ids)) n_tx amount active)
      end end end end end end end end
  | Exc m, _, _ => Exc m
  | _, Exc m, _ => Exc m
  | _, _, Exc m => Exc m
  end.

(** [total_amount / 100 if total_amount > 0 else 0] *)
Definition dollars (total : json) : json :=
  match py_num total with
  | Some q => if negb (Qle_bool q 0) then JReal (q / (100 # 1))%Q else JInt 0
  | None => JInt 0
  end.

Definition errors_json (errs : list string) : json :=
  match errs with [] => JNull | _ => JArr (map JStr errs) end.

Definition build_summary (st : summary_stats) (now status : string)
    (errs : list string) : json :=
  JObj [("total_donors", JInt (total_donors st));
        ("total_transactions", JInt (total_transactions st));
        ("total_amount_cents", total_amount st);
        ("total_amount_dollars", dollars (total_amount st));
        ("active_recurring_plans", JInt (active_plans st));
        ("last_updated", JStr now);
        ("sync_status", JStr status);
        ("sync_errors", errors_json errs)].

(** [generate_donor_summary]: any exception is logged and appended to
    [sync_errors]; none escapes. *)
Definition generate_donor_summary : M unit :=
  catch (A := unit)
    (let* contacts_data := get_latest_data_from_gcs "contacts" "givebutter" in
     let* transactions_data := get_latest_data_from_gcs "transactions" "givebutter" in
     let* plans_data := get_latest_data_from_gcs "plans" "givebutter" in
     let* campaigns_data := get_latest_data_from_gcs "campaigns" "givebutter" in
     let* stats := lift (summary_core contacts_data transactions_data plans_data) in
     let* e := get_env in
     let* s := get_state in
     store_data_in_gcs "summary"
       (build_summary stats (isoformat (clock e)) (sync_status s) (sync_errors s))
       "givebutter")
    (fun msg => append_error ("Summary Generation Error: " +:+ msg)).

(* ================================================================== *)
(** ** Sync orchestrator: [sync_all_data] *)

Definition data_types : list string := ["contacts"; "transactions"; "plans"; "campaigns"].

(** [for data_type in data_types: data = await poll_givebutter_api(data_type);
    await store_data_in_gcs(data_type, data)] *)
Fixpoint sync_collections (dts : list string) : M unit :=
  match dts with
  | [] => mret tt
  | dt :: rest =>
      let* data := poll_givebutter_api dt in
      store_data_in_gcs dt data "givebutter";;
      sync_collections rest
  end.

(** The [try] block of [sync_all_data]. *)
Definition sync_body : M unit :=
  catch (A := unit)
    (sync_collections data_types;;
     generate_donor_summary;;
     let* e := get_env in
     set_last_sync (clock e);;
     set_status "completed")
    (fun msg =>
       set_status "failed";;
       append_error ("Sync Error: " +:+ msg);;
       raise msg).

(** The guarded entry of [sync_all_data]: no [await] separates the check
    from the assignments, so it runs as one atomic step of the event loop.
    It answers whether this call goes on to the body. *)
Definition sync_entry : M bool :=
  let* s := get_state in
  if String.eqb (sync_status s) "syncing" then mret false
  else set_status "syncing";; set_errors [];; mret true.

(** [sync_all_data] *)
Definition sync_all_data : M unit :=
  let* go := sync_entry in
  if go then sync_body else mret tt.

(* ================================================================== *)
(** ** Query surface: [get_donor_data] *)

(** [a // b] on integers: floor division, [ZeroDivisionError] on zero. *)
Definition py_floordiv (a b : Z) : res Z :=
  if Z.eqb b 0 then Exc "integer division or modulo by zero" else Ok (Z.div a b).

(** [xs[a:b]] (step 1), with Python's clamping of negative and large
    bounds. *)
Definition slice_bound (n : Z) (i : Z) : Z :=
  if (i <? 0)%Z then Z.max 0 (i + n) else Z.min i n.
Definition py_slice {A} (xs : list A) (a b : Z) : list A :=
  let n := Z.of_nat (length xs) in
  let lo := slice_bound n a in
  let hi := slice_bound n b in
  firstn (Z.to_nat (hi - lo)) (skipn (Z.to_nat lo) xs).

(** [str.isspace] on the characters of the model's strings (code points
    0-255). *)
Definition is_py_space (c : ascii) : bool :=
  let n := nat_of_ascii c in
  (((9 <=? n) && (n <=? 13)) || ((28 <=? n) && (n <=? 32)) || (n =? 133) || (n =? 160))%nat.

Fixpoint lstrip (s : string) : string :=
  match s with
  | EmptyString => EmptyString
  | String c s' => if is_py_space c then lstrip s' else s
  end.

(** [s.strip()] *)
Definition py_strip (s : string) : string :=
  String.rev (lstrip (String.rev (lstrip s))).

(** [active_plans_by_contact]: for each plan, [if plan.get('status') ==
    'active' and plan.get('contact_id')], append it under
    [str(plan['contact_id'])]. *)
Fixpoint group_active_plans (plans : list json) (acc : gmap string (list json))
    : res (gmap string (list json)) :=
  match plans with
  | [] => Ok acc
  | plan :: rest =>
      match py_get plan "status" JNull with
      | Exc m => Exc m
      | Ok st =>
          if py_hash_eq st (JStr "active") then
            match py_get plan "contact_id" JNull with
            | Exc m => Exc m
            | Ok cid =>
                if py_truthy cid then
                  let k := py_str cid in
                  group_active_plans rest
                    (<[k := (default [] (acc !! k) ++ [plan])%list]> acc)
                else group_active_plans rest acc
            end
          else group_active_plans rest acc
      end
  end.

(** [contact_transactions]: [contact_id = str(txn.get('contact_id'))];
    [if contact_id:] append. *)
Fixpoint group_transactions (txns : list json) (acc : gmap string (list json))
    : res (gmap string (list json)) :=
  match txns with
  | [] => Ok acc
  | txn :: rest =>
      match py_get txn "contact_id" JNull with
      | Exc m => Exc m
      | Ok v =>
          let k := py_str v in
          if String.eqb k "" then group_transactions rest acc
          else group_transactions rest
                 (<[k := (default [] (acc !! k) ++ [txn])%list]> acc)
      end
  end.

(** [len(xs) > 0] and [xs[0].get('interval', 'monthly') if is_recurring else None] *)
Definition recurring_frequency (contact_plans : list json) : res json :=
  match contact_plans with
  | [] => Ok JNull
  | p :: _ => py_get p "interval" (JStr "monthly")
  end.

(** The [enriched_contact] dict built for one contact. *)
Definition enrich_contact (plans_by : gmap string (list json))
    (txns_by : gmap string (list json)) (contact : json) : res json :=
  match py_get contact "id" JNull with
  | Exc m => Exc m
  | Ok idv =>
  let contact_id := py_str idv in
  let contact_txns := default [] (txns_by !! contact_id) in
  let contact_plans := default [] (plans_by !! contact_id) in
  match sum_field "amount" contact_txns, sum_field "amount" contact_plans with
  | Exc m, _ => Exc m
  | _, Exc m => Exc m
  | Ok total, Ok recurring =>
  let is_recurring := negb (Nat.eqb (length contact_plans) 0) in
  match py_get contact "first_name" (JStr ""), py_get contact "last_name" (JStr ""),
        py_get contact "email" JNull, py_get contact "phone" JNull,
        py_get contact "created_at" JNull, recurring_frequency contact_plans with
  | Ok fnv, Ok lnv, Ok email, Ok phone, Ok created, Ok freq =>
      let full := py_strip (py_str fnv +:+ " " +:+ py_str lnv) in
      let name := if String.eqb full "" then "Anonymous" else full in
      Ok (JObj [("id", JStr contact_id);
                ("name", JStr name);
                ("email", email);
                ("phone", phone);
                ("created_at", created);
                ("isRecurring", JBool is_recurring);
                ("recurringFrequency", freq);
                ("stats", JObj [("total_contributions", total);
                                ("recurring_contributions", recurring);
                                ("contribution_count", JInt (Z.of_nat (length contact_txns)));
                                ("active_plans", JInt (Z.of_nat (length contact_plans)));
                                ("is_recurring", JBool is_recurring)])])
  | Exc m, _, _, _, _, _ => Exc m
  | _, Exc m, _, _, _, _ => Exc m
  | _, _, Exc m, _, _, _ => Exc m
  | _, _, _, Exc m, _, _ => Exc m
  | _, _, _, _, Exc m, _ => Exc m
  | _, _, _, _, _, Exc m => Exc m
  end end end.

Fixpoint map_res {A B} (f : A -> res B) (xs : list A) : res (list B) :=
  match xs with
  | [] => Ok []
  | x :: rest =>
      match f x with
      | Exc m => Exc m
      | Ok y => match map_res f rest with Exc m => Exc m | Ok ys => Ok (y :: ys) end
      end
  end.

(** Everything [get_donor_data] computes between reading the snapshots and
    paginating: the [enriched_contacts] list. *)
Definition enrich_all (contacts_data transactions_data plans_data : json) : res (list json) :=
  match py_get contacts_data "data" (JArr []) with
  | Exc m => Exc m
  | Ok contacts =>
  match (if py_truthy transactions_data then py_get transactions_data "data" (JArr [])
         else Ok (JArr [])) with
  | Exc m => Exc m
  | Ok transactions =>
  match (if py_truthy plans_data then py_get plans_data "data" (JArr [])
         else Ok (JArr [])) with
  | Exc m => Exc m
  | Ok plans =>
  match py_iter plans with
  | Exc m => Exc m
  | Ok ps =>
  match group_active_plans ps ∅ with
  | Exc m => Exc m
  | Ok plans_by =>
  match py_iter transactions with
  | Exc m => Exc m
  | Ok ts =>
  match group_transactions ts ∅ with
  | Exc m => Exc m
  | Ok txns_by =>
  match py_iter contacts with
  | Exc m => Exc m
  | Ok cs => map_res (enrich_contact plans_by txns_by) cs
  end end end end end end end end.

Definition opt_json (x : option json) : json := default JNull x.

(** The response body of [get_donor_data] around a page. *)
Definition donor_page (data : list json) (total page limit : Z) (has_more : bool)
    (now : string) : json :=
  JObj [("success", JBool true);
        ("data", JArr data);
        ("meta", JObj [("total", JInt total); ("page", JInt page);
                       ("per_page", JInt limit); ("has_more", JBool has_more)]);
        ("timestamp", JStr now)].

(** [get_donor_data(limit, offset)]; an exception becomes the
    [HTTPException(500)] the endpoint raises, carried as [Exc]. *)
Definition get_donor_data (limit offset : Z) : M json :=
  catch (A := json)
    (let* contacts_data := get_latest_data_from_gcs "contacts" "givebutter" in
     let* transactions_data := get_latest_data_from_gcs "transactions" "givebutter" in
     let* plans_data := get_latest_data_from_gcs "plans" "givebutter" in
     let* e := get_env in
     let now := isoformat (clock e) in
     if negb (py_truthy (opt_json contacts_data)) then
       let* q := lift (py_floordiv offset limit) in
       mret (donor_page [] 0 (q + 1) limit false now)
     else
       let* enriched := lift (enrich_all (opt_json contacts_data)
                                (opt_json transactions_data) (opt_json plans_data)) in
       let total := Z.of_nat (length enriched) in
       let paginated := py_slice enriched offset (offset + limit) in
       let* q := lift (py_floordiv offset limit) in
       mret (donor_page paginated total (q + 1) limit (offset + limit <? total)%Z now))
    (fun msg => raise ("500: " +:+ msg)).

(* ================================================================== *)
(** ** Models for the properties: the event loop, readings of the spec,
    concrete worlds *)

(** What [get_latest_data_from_gcs(data_type)] answers in a given world. *)
Definition latest_snapshot (data_type : string) (e : env) (s : state) : option json :=
  match fst (get_latest_data_from_gcs data_type "givebutter" e s) with
  | Ok r => r
  | Exc _ => None
  end.

(** The response [get_donor_data] builds for a page, written from the
    endpoint's contract: the slice [offset, offset + limit) of the enriched
    list, page [offset // limit + 1], [has_more] iff [offset + limit < total]. *)
Definition donor_page_spec (limit offset : Z) (e : env) (s : state) : res json :=
  let cd := latest_snapshot "contacts" e s in
  let td := latest_snapshot "transactions" e s in
  let pd := latest_snapshot "plans" e s in
  let now := isoformat (clock e) in
  let page := (offset / limit + 1)%Z in
  if negb (py_truthy (opt_json cd)) then Ok (donor_page [] 0 page limit false now)
  else match enrich_all (opt_json cd) (opt_json td) (opt_json pd) with
       | Ok enriched =>
           let total := Z.of_nat (length enriched) in
           Ok (donor_page (firstn (Z.to_nat limit) (skipn (Z.to_nat offset) enriched))
                 total page limit (offset + limit <? total)%Z now)
       | Exc m => Exc ("500: " +:+ m)
       end.

Section KeepsStatus.
Context {A : Type}.

(** A computation that never assigns [sync_status]. *)
Definition keeps_status (m : M A) : Prop :=
  forall e s, sync_status (snd (m e s)) = sync_status s.
End KeepsStatus.

(** The event loop running [sync_all_data] coroutines.  A trigger (the
    interval job, the startup task, a manual request) creates a coroutine at
    its entry; every other step resumes one coroutine up to its next
    [await]. *)
Inductive task : Type :=
| TEntry
| TPoll (rest : list string)
| TStore (data_type : string) (data : json) (rest : list string)
| TSummary
| TComplete.

Definition in_flight (t : task) : bool :=
  match t with TEntry => false | _ => true end.

Record loop := mkLoop { lstate : state; tasks : list task }.

(** [except Exception as e: sync_status = "failed"; sync_errors.append(...); raise] *)
Definition fail_state (msg : string) (s : state) : state :=
  mkState "failed" (sync_errors s ++ ["Sync Error: " +:+ msg]) (last_sync_time s)
    (objects s) (trace s).

Inductive loop_step (e : env) : loop -> loop -> Prop :=
| LTrigger s ts :
    loop_step e (mkLoop s ts) (mkLoop s (ts ++ [TEntry]))
| LEntrySkip s ts1 ts2 :
    sync_entry e s = (Ok false, s) ->
    loop_step e (mkLoop s (ts1 ++ TEntry :: ts2)) (mkLoop s (ts1 ++ ts2))
| LEntryGo s s' ts1 ts2 :
    sync_entry e s = (Ok true, s') ->
    loop_step e (mkLoop s (ts1 ++ TEntry :: ts2))
                (mkLoop s' (ts1 ++ TPoll data_types :: ts2))
| LPoll s s' dt rest data ts1 ts2 :
    poll_givebutter_api dt e s = (Ok data, s') ->
    loop_step e (mkLoop s (ts1 ++ TPoll (dt :: rest) :: ts2))
                (mkLoop s' (ts1 ++ TStore dt data rest :: ts2))
| LPollFail s s' dt rest msg ts1 ts2 :
    poll_givebutter_api dt e s = (Exc msg, s') ->
    loop_step e (mkLoop s (ts1 ++ TPoll (dt :: rest) :: ts2))
                (mkLoop (fail_state msg s') (ts1 ++ ts2))
| LPollDone s ts1 ts2 :
    loop_step e (mkLoop s (ts1 ++ TPoll [] :: ts2))
                (mkLoop s (ts1 ++ TSummary :: ts2))
| LStore s s' dt data rest ts1 ts2 :
    store_data_in_gcs dt data "givebutter" e s = (Ok tt, s') ->
    loop_step e (mkLoop s (ts1 ++ TStore dt data rest :: ts2))
                (mkLoop s' (ts1 ++ TPoll rest :: ts2))
| LStoreFail s s' dt data rest msg ts1 ts2 :
    store_data_in_gcs dt data "givebutter" e s = (Exc msg, s') ->
    loop_step e (mkLoop s (ts1 ++ TStore dt data rest :: ts2))
                (mkLoop (fail_state msg s') (ts1 ++ ts2))
| LSummary s s' r ts1 ts2 :
    generate_donor_summary e s = (r, s') ->
    loop_step e (mkLoop s (ts1 ++ TSummary :: ts2))
                (mkLoop s' (ts1 ++ TComplete :: ts2))
| LComplete s ts1 ts2 :
    loop_step e (mkLoop s (ts1 ++ TComplete :: ts2))
                (mkLoop (mkState "completed" (sync_errors s) (Some (clock e))
                           (objects s) (trace s)) (ts1 ++ ts2)).

Definition initial_loop : loop := mkLoop (mkState "idle" [] None ∅ []) [].

Fixpoint n_in_flight (ts : list task) : nat :=
  match ts with
  | [] => 0
  | t :: ts' => (if in_flight t then 1 else 0) + n_in_flight ts'
  end.

Definition single_flight (l : loop) : Prop :=
  n_in_flight (tasks l) <= 1 /\
  (sync_status (lstate l) = "syncing" <-> n_in_flight (tasks l) = 1).

(** [k] triggers whose entries run back to back; the answers say which of
    them went on to the body. *)
Fixpoint run_entries (k : nat) (e : env) (s : state) : list bool * state :=
  match k with
  | 0 => ([], s)
  | S k' =>
      match sync_entry e s with
      | (Ok b, s') => let '(bs, s'') := run_entries k' e s' in (b :: bs, s'')
      | (Exc _, s') => ([], s')
      end
  end.

Fixpoint n_true (bs : list bool) : nat :=
  match bs with [] => 0 | b :: bs' => (if b then 1 else 0) + n_true bs' end.

Definition cycle_effects (dts : list string) (t : timestamp) : list effect :=
  List.concat (map (fun dt => [EFetch dt; EPut (blob_name "givebutter" dt t)]) dts).

Definition json_field (v : json) (k : string) : option json :=
  match v with JObj fs => dict_lookup k fs | _ => None end.

Definition envelope_items (v : json) : list json :=
  match json_field v "data" with Some (JArr l) => l | _ => [] end.

(** The envelope shape live data has: [{"data": [...], "meta": {"total",
    "page", "per_page"}}]. *)
Definition envelope_shaped (v : json) : Prop :=
  exists items total page per_page, v = envelope items (meta total page per_page).

Definition written_types : list string :=
  ["contacts"; "transactions"; "plans"; "campaigns"; "summary"].

Definition with_clock (e : env) (t : timestamp) : env :=
  mkEnv (STORAGE_BUCKET e) (GIVEBUTTER_API_KEY e) t (write_fault e) (read_fault e) (upstream e).

(** A sequence of [store_data_in_gcs(data_type, data)] calls, each at its
    own wall-clock time. *)
Fixpoint store_all (ws : list (string * json * timestamp)) (e : env) (s : state) : state :=
  match ws with
  | [] => s
  | (dt, data, t) :: ws' =>
      store_all ws' e (snd (store_data_in_gcs dt data "givebutter" (with_clock e t) s))
  end.

Definition sample_time : timestamp := mkTs 2026 10 18 12 0 5.

Definition sample_env : env :=
  mkEnv "wlmn-site-main-assets" None sample_time (fun _ => None) None (fun _ => Ok []).

Definition empty_state : state := mkState "idle" [] None ∅ [].

Definition malformed_env : env :=
  mkEnv "wlmn-site-main-assets" (Some "live-key") sample_time (fun _ => None) None
    (fun ep => if String.eqb ep "contacts" then Ok [JInt 1] else Ok []).

Definition after_collections : state :=
  snd (sync_collections data_types malformed_env
         (mkState "syncing" [] None ∅ [])).

(** The integer a transaction contributes to [sum(t.get('amount', 0) ...)],
    when it is a dict whose amount is an integer or missing. *)
Definition int_amount (t : json) : option Z :=
  match t with
  | JObj fs =>
      match dict_lookup "amount" fs with
      | Some (JInt z) => Some z
      | None => Some 0%Z
      | Some _ => None
      end
  | _ => None
  end.

Definition z_sum (zs : list Z) : Z := fold_right Z.add 0%Z zs.

Definition fixture_transactions : list json :=
  [JObj [("id", JStr "t1"); ("contact_id", JStr "1"); ("amount", JInt 10000)];
   JObj [("id", JStr "t2"); ("contact_id", JStr "2"); ("amount", JInt 9671)];
   JObj [("id", JStr "t3"); ("contact_id", JStr "3"); ("amount", JInt 2500)]].

Definition fixture_snapshot (items : list json) : option json :=
  Some (envelope items (meta (Z.of_nat (length items)) 1 (Z.of_nat (length items)))).

(** A record whose [field] is a string or is missing. *)
Definition string_or_missing (field : string) (x : json) : Prop :=
  exists fs, x = JObj fs /\
    (dict_lookup field fs = None \/ exists s, dict_lookup field fs = Some (JStr s)).

(** The non-empty string values of [field] across [items]. *)
Definition id_strs (field : string) (items : list json) : list string :=
  flat_map (fun x => match json_field x field with
                     | Some (JStr s) => if String.eqb s "" then [] else [s]
                     | _ => []
                     end) items.

Definition fixture_contacts : list json :=
  [JObj [("id", JStr "1"); ("email", JStr "a@example.org")];
   JObj [("id", JStr "2"); ("email", JStr "b@example.org")];
   JObj [("id", JStr "3"); ("email", JStr "c@example.org")]].

Definition fixture_union_transactions : list json :=
  [JObj [("id", JStr "t1"); ("contact_id", JStr "1"); ("amount", JInt 1000)];
   JObj [("id", JStr "t2"); ("contact_id", JStr "2"); ("amount", JInt 1000)];
   JObj [("id", JStr "t3"); ("contact_id", JStr "3"); ("amount", JInt 1000)];
   JObj [("id", JStr "t4"); ("contact_id", JStr "4"); ("amount", JInt 1000)];
   JObj [("id", JStr "t5"); ("contact_id", JStr "4"); ("amount", JInt 1000)]].

Definition latest_prefix (integration_id data_type : string) : string :=
  "givebutter-data/" +:+ integration_id +:+ "/" +:+ data_type +:+ "/".

Definition blob_payload (b : blob) : option json :=
  match b with BJson j => Some j | BRaw _ => None end.

Definition production_env : env :=
  mkEnv "wlmn-donor-data" None sample_time (fun _ => None) None (fun _ => Ok []).

Definition one_write_state : state :=
  snd (store_data_in_gcs "contacts" (envelope [] (meta 0 1 100)) "givebutter"
         sample_env empty_state).

(** The plans the code files under the key [k]: active ones whose
    [contact_id] is truthy and prints as [k]. *)
Definition active_for (k : string) (p : json) : bool :=
  match p with
  | JObj fs =>
      let cid := default JNull (dict_lookup "contact_id" fs) in
      py_hash_eq (default JNull (dict_lookup "status" fs)) (JStr "active") &&
      py_truthy cid && String.eqb (py_str cid) k
  | _ => false
  end.

(** [str(contact.get('id'))] *)
Definition contact_key (c : json) : string :=
  match c with JObj fs => py_str (default JNull (dict_lookup "id" fs)) | _ => "" end.

(** The spec's reading of [recurring_frequency]: the first active plan of the contact in
    fetch order, its [interval] or ["monthly"] when it has none, [null]
    when there is no such plan. *)
Definition spec_recurring_frequency (k : string) (plans : list json) : json :=
  match find (active_for k) plans with
  | None => JNull
  | Some p => match json_field p "interval" with Some v => v | None => JStr "monthly" end
  end.

Definition fixture_plans : list json :=
  [JObj [("id", JStr "p1"); ("contact_id", JStr "2"); ("status", JStr "cancelled");
         ("interval", JStr "yearly")];
   JObj [("id", JStr "p2"); ("contact_id", JStr "2"); ("status", JStr "active");
         ("interval", JStr "quarterly")];
   JObj [("id", JStr "p3"); ("contact_id", JStr "2"); ("status", JStr "active");
         ("interval", JStr "monthly")]].

Definition syncing_state : state := mkState "syncing" [] None ∅ [].

Definition plans_write_fault (k : string) : option string :=
  if String.eqb k (blob_name "givebutter" "plans" sample_time) then Some "403 Forbidden"
  else None.

Definition write_fault_env : env :=
  mkEnv "wlmn-site-main-assets" None sample_time plans_write_fault None (fun _ => Ok []).

Definition outage_env : env :=
  mkEnv "wlmn-site-main-assets" (Some "live-key") sample_time (fun _ => None) None
    (fun ep => Exc "503 Service Unavailable").

(** Chronological order of two [datetime]s of the model: their fields
    compared in order of significance. *)
Definition lex (c rest : comparison) : comparison :=
  match c with Eq => rest | _ => c end.

Definition ts_compare (a b : timestamp) : comparison :=
  lex (Nat.compare (ts_year a) (ts_year b))
  (lex (Nat.compare (ts_month a) (ts_month b))
  (lex (Nat.compare (ts_day a) (ts_day b))
  (lex (Nat.compare (ts_hour a) (ts_hour b))
  (lex (Nat.compare (ts_minute a) (ts_minute b))
       (Nat.compare (ts_second a) (ts_second b)))))).

(** Writes of one type at times no later than [t]. *)
Definition series (dt : string) (ws : list (json * timestamp)) : list (string * json * timestamp) :=
  map (fun w => (dt, w.1, w.2)) ws.

(** [page <= total_pages], [total_pages] being whatever the last response's
    [meta.get('last_page', 1)] held. *)
Definition py_le_page (page : Z) (tp : json) : res bool :=
  match tp with
  | JInt z => Ok (page <=? z)%Z
  | JBool b => Ok (page <=? if b then 1 else 0)%Z
  | JReal q => Ok (Qle_bool (inject_Z page) q)
  | _ => Exc ("'<=' not supported between instances of 'int' and '" +:+ py_type_name tp +:+ "'")
  end.

(** The [while page <= total_pages] loop of [poll_givebutter_api], run for at
    most [fuel] iterations ([None] when they run out).  [get_page page] is the
    outcome of [client.get(...)], [raise_for_status()] and [response.json()]
    for that page.  Besides the result it answers the pages requested, in
    order. *)
Fixpoint fetch_pages (fuel : nat) (get_page : Z -> res json) (page : Z) (total_pages : json)
    (all_data : list json) : option (res (list json) * list Z) :=
  match fuel with
  | O => None
  | S f =>
      match py_le_page page total_pages with
      | Exc m => Some (Exc m, [])
      | Ok false => Some (Ok all_data, [])
      | Ok true =>
          match get_page page with
          | Exc m => Some (Exc m, [page])
          | Ok data =>
              match py_get data "data" (JArr []) with
              | Exc m => Some (Exc m, [page])
              | Ok d =>
              match py_iter d with
              | Exc m => Some (Exc m, [page])
              | Ok items =>
              match py_get data "meta" (JObj []) with
              | Exc m => Some (Exc m, [page])
              | Ok meta =>
              match py_get meta "last_page" (JInt 1) with
              | Exc m => Some (Exc m, [page])
              | Ok tp =>
                  option_map (fun r => (fst r, page :: snd r))
                    (fetch_pages f get_page (page + 1) tp (all_data ++ items)%list)
              end end end end
          end
      end
  end.

(** [page = 1; total_pages = 1; all_data = []] *)
Definition page_loop (fuel : nat) (get_page : Z -> res json) : option (res (list json) * list Z) :=
  fetch_pages fuel get_page 1 (JInt 1) [].

(** A page response carrying [items] and announcing [last_page = n] (a missing
    [meta] or [last_page] counts as 1, as the code's defaults make it). *)
Definition page_ok (resp : json) (items : list json) (n : Z) : Prop :=
  exists fs, resp = JObj fs /\ dict_lookup "data" fs = Some (JArr items) /\
    py_get (default (JObj []) (dict_lookup "meta" fs)) "last_page" (JInt 1) = Ok (JInt n).

Definition page_range (p : Z) (n : nat) : list Z := map (fun i => p + Z.of_nat i)%Z (seq 0 n).

(** The transactions the code files under the key [k]: those whose
    [str(contact_id)] is non-empty and equals [k]. *)
Definition txn_for (k : string) (t : json) : bool :=
  match t with
  | JObj fs =>
      let v := py_str (default JNull (dict_lookup "contact_id" fs)) in
      negb (String.eqb v "") && String.eqb v k
  | _ => false
  end.

(** The [stats] dict and [isRecurring] flag the code builds for key [k]
    out of the contact's transactions and active plans. *)
Definition stats_for (k : string) (ts ps : list json) (tot rec : json) : json :=
  let plans := List.filter (active_for k) ps in
  let is_recurring := negb (Nat.eqb (length plans) 0) in
  JObj [("total_contributions", tot);
        ("recurring_contributions", rec);
        ("contribution_count", JInt (Z.of_nat (length (List.filter (txn_for k) ts))));
        ("active_plans", JInt (Z.of_nat (length plans)));
        ("is_recurring", JBool is_recurring)].

(** The enriched record [r] of contact [c]: its [id], [isRecurring] and
    [stats] as the code derives them from the transactions [ts] and the
    plans [ps]. *)
Definition donor_record_ok (ts ps : list json) (c r : json) : Prop :=
  let k := contact_key c in
  exists tot rec,
    sum_field "amount" (List.filter (txn_for k) ts) = Ok tot /\
    sum_field "amount" (List.filter (active_for k) ps) = Ok rec /\
    json_field r "id" = Some (JStr k) /\
    json_field r "isRecurring" =
      Some (JBool (negb (Nat.eqb (length (List.filter (active_for k) ps)) 0))) /\
    json_field r "stats" = Some (stats_for k ts ps tot rec).

(** The [data] list of a [get_donor_data] answer ([[]] for an error). *)
Definition page_items (r : res json) : list json :=
  match r with
  | Ok (JObj fs) => match dict_lookup "data" fs with Some (JArr l) => l | _ => [] end
  | _ => []
  end.

(** The [data] [get_donor_summary] answers when no summary can be read. *)
Definition default_summary (now status : string) : json :=
  JObj [("total_donors", JInt 0);
        ("total_transactions", JInt 0);
        ("total_amount_cents", JInt 0);
        ("total_amount_dollars", JInt 0);
        ("active_recurring_plans", JInt 0);
        ("last_updated", JStr now);
        ("sync_status", JStr status)].

Definition summary_response (data : json) (now : string) : json :=
  JObj [("success", JBool true); ("data", data); ("timestamp", JStr now)].

(** [get_donor_summary]: read the latest summary, generate and re-read it
    when that is falsy, answer it or the zero summary; an exception becomes
    the endpoint's [HTTPException(500)]. *)
Definition get_donor_summary : M json :=
  catch (A := json)
    (let* summary_data := get_latest_data_from_gcs "summary" "givebutter" in
     let* summary_data :=
       (if py_truthy (opt_json summary_data) then mret summary_data
        else generate_donor_summary;; get_latest_data_from_gcs "summary" "givebutter") in
     let* e := get_env in
     let* s := get_state in
     let now := isoformat (clock e) in
     mret (summary_response
             (if py_truthy (opt_json summary_data) then opt_json summary_data
              else default_summary now (sync_status s)) now))
    (fun msg => raise ("500: " +:+ msg)).

Definition production_summary_name : string := "donor-sync/production/summary_data.json".

(** The deployment settings the authentication code reads: the
    [ENVIRONMENT] variable and Google's [id_token.verify_oauth2_token] for
    the service's audience, as the outcome it has on a token. *)
Record auth_config := mkAuthConfig {
  ENVIRONMENT : string;
  verify_oauth2_token : string -> res json }.

(** [s.split(' ', 1)] *)
Fixpoint split_once_go (s acc : string) : list string :=
  match s with
  | EmptyString => [acc]
  | String c s' => if Ascii.eqb c " " then [acc; s'] else split_once_go s' (acc +:+ String c "")
  end.

Definition split_once (s : string) : list string := split_once_go s "".

(** How [verify_google_identity_token] ends: a claims dict, an
    [AuthenticationError], or another exception. *)
Inductive auth_outcome :=
| AuthOk (claims : json)
| AuthError (msg : string)
| AuthCrash (msg : string).

Definition dev_claims : json := JObj [("email", JStr "dev@localhost"); ("sub", JStr "dev")].

(** [verify_google_identity_token], given [request.headers.get('Authorization')]. *)
Definition verify_google_identity_token (cfg : auth_config) (auth_header : option string)
    : auth_outcome :=
  if String.eqb (ENVIRONMENT cfg) "development" then AuthOk dev_claims
  else
    match auth_header with
    | None => AuthError "Missing or invalid Authorization header"
    | Some h =>
        if String.eqb h "" || negb (String.prefix "Bearer " h) then
          AuthError "Missing or invalid Authorization header"
        else
          match nth_error (split_once h) 1 with
          | None => AuthCrash "list index out of range"
          | Some token =>
              match verify_oauth2_token cfg token with
              | Exc m => AuthError ("Invalid token: " +:+ m)
              | Ok decoded =>
                  match py_get decoded "email" JNull with
                  | Exc m => AuthError ("Invalid token: " +:+ m)
                  | Ok _ => AuthOk decoded
                  end
              end
          end
    end.

(** [get_authenticated_user]: an [AuthenticationError] becomes
    [HTTPException(401)]; any other exception passes through. *)
Definition get_authenticated_user (cfg : auth_config) (auth_header : option string) : res json :=
  match verify_google_identity_token cfg auth_header with
  | AuthOk claims => Ok claims
  | AuthError m => Exc ("401: " +:+ m)
  | AuthCrash m => Exc m
  end.

Definition mock_stats : summary_stats := mkStats 168 186 (JInt 1860000) 78.

Definition read_types : list string := ["contacts"; "transactions"; "plans"; "summary"].

(** The summary the production read path builds from a production
    summary file whose [total_amount] is an integer [z]. *)
Definition production_summary (fs : list (string * json)) (z : Z) : json :=
  JObj [("total_donors", default (JInt 0) (dict_lookup "total_donors" fs));
        ("total_transactions", default (JInt 0) (dict_lookup "total_donations" fs));
        ("total_amount_cents", JInt (z * 100));
        ("total_amount_dollars", JInt z);
        ("active_recurring_plans", default (JInt 0) (dict_lookup "recurring_donors" fs));
        ("last_updated", default JNull (dict_lookup "last_sync" fs));
        ("sync_status", default (JStr "success") (dict_lookup "sync_status" fs))].

(** Concrete worlds for the paging, summary, authentication and snapshot properties. *)
Definition sample_earlier : timestamp := mkTs 2026 10 18 11 59 59.

Definition two_page_server (p : Z) : res json :=
  Ok (JObj [("data", JArr [JInt p]); ("meta", JObj [("last_page", JInt 2)])]).

Definition flaky_server (p : Z) : res json :=
  if (p =? 2)%Z then Exc "502 Server Error: Bad Gateway"
  else Ok (JObj [("data", JArr [JInt p]); ("meta", JObj [("last_page", JInt 3)])]).

Definition metaless_server (p : Z) : res json := Ok (JObj [("data", JArr [JInt p])]).

Definition anonymous_contact : json := JObj [("email", JStr "d@example.org")].

Definition orphan_transaction : json := JObj [("id", JStr "t9"); ("amount", JInt 500)].

Definition contacts_state : state :=
  snd (store_data_in_gcs "contacts" (envelope fixture_contacts (meta 3 1 3)) "givebutter"
         sample_env empty_state).

Definition dev_auth : auth_config := mkAuthConfig "development" (fun _ => Exc "unreachable").

Definition prod_auth : auth_config :=
  mkAuthConfig "production"
    (fun tok => if String.eqb tok "good token" then Ok (JObj [("email", JStr "svc@example.org")])
                else Exc "Token expired").

Definition production_summary_fields : list (string * json) :=
  [("total_donors", JInt 168); ("total_donations", JInt 186); ("total_amount", JInt 18600);
   ("recurring_donors", JInt 78); ("last_sync", JStr "2026-10-18T12:00:00")].

Definition production_summary_state : state :=
  mkState "idle" [] None {[production_summary_name := BJson (JObj production_summary_fields)]} [].

Definition production_contacts_state : state :=
  mkState "idle" [] None
    {["donor-sync/production/contacts_data.json" :=
        BJson (JObj [("contacts", JArr fixture_contacts)])]} [].

(* ================================================================== *)
(** * Properties *)

Ltac unfold_monad :=
  unfold mret, M_ret, mbind, M_bind, catch, bind, get_env, get_state, ret, raise,
    modify in *.

Ltac run_monad :=
  repeat match goal with
  | |- context [match ?x with _ => _ end] => case_match
  | H : (_, _) = (_, _) |- _ => injection H as; subst
  end; simplify_eq/=.

(** ** Reads never raise and never change the state *)

Lemma get_latest_total (data_type integration_id : string) e s :
  snd (get_latest_data_from_gcs data_type integration_id e s) = s /\
  exists r, fst (get_latest_data_from_gcs data_type integration_id e s) = Ok r.
Proof.
  unfold get_latest_data_from_gcs, blob_exists, download_json,
    list_blobs, check_read, lift.
  unfold_monad. run_monad; eauto.
Qed.

Lemma get_latest_spec data_type e s :
  get_latest_data_from_gcs data_type "givebutter" e s =
  (Ok (latest_snapshot data_type e s), s).
Proof.
  unfold latest_snapshot.
  destruct (get_latest_total data_type "givebutter" e s) as [Hs [r Hr]].
  destruct (get_latest_data_from_gcs data_type "givebutter" e s) as [x s'].
  simpl in *; subst. reflexivity.
Qed.

(** ** Paging of the donor-data endpoint *)

Lemma firstn_min_length {A} (k : nat) (l : list A) :
  firstn (Nat.min k (length l)) l = firstn k l.
Proof.
  revert k; induction l as [|x l IH]; intros [|k]; simpl; auto.
  f_equal. apply IH.
Qed.

Lemma py_slice_nonneg {A} (xs : list A) (offset limit : Z) :
  (0 <= offset)%Z -> (0 <= limit)%Z ->
  py_slice xs offset (offset + limit) =
  firstn (Z.to_nat limit) (skipn (Z.to_nat offset) xs).
Proof.
  intros Ho Hl. unfold py_slice, slice_bound.
  rewrite (proj2 (Z.ltb_ge offset 0)) by lia.
  rewrite (proj2 (Z.ltb_ge (offset + limit) 0)) by lia.
  set (n := length xs).
  destruct (Z_le_gt_dec (Z.of_nat n) offset) as [Hge | Hlt].
  - rewrite (Z.min_r offset) by lia.
    rewrite (Z.min_r (offset + limit)) by lia.
    rewrite Nat2Z.id, Z.sub_diag. simpl.
    rewrite (drop_ge xs (Z.to_nat offset)) by (subst n; lia).
    rewrite firstn_nil. reflexivity.
  - rewrite (Z.min_l offset) by lia.
    rewrite <- (firstn_min_length (Z.to_nat limit)).
    rewrite length_skipn. f_equal.
    destruct (Z_le_gt_dec (offset + limit) (Z.of_nat n)).
    + rewrite Z.min_l by lia. subst n; lia.
    + rewrite Z.min_r by lia. subst n; lia.
Qed.

(** C10: [get_donor_data] is partial in [limit]: with [limit = 0] the
    page index [offset // limit + 1] raises and the request fails, whatever
    the store holds; with [limit > 0] and [offset >= 0] it succeeds with the
    slice [offset, offset + limit) of the enriched list and [has_more] is
    [offset + limit < total]. *)
Theorem get_donor_data_paging (limit offset : Z) (e : env) (s : state) :
  (limit = 0%Z -> exists msg, get_donor_data limit offset e s = (Exc msg, s)) /\
  ((0 < limit)%Z -> (0 <= offset)%Z ->
   get_donor_data limit offset e s = (donor_page_spec limit offset e s, s)).
Proof.
  unfold get_donor_data, donor_page_spec, lift.
  unfold_monad.
  rewrite !get_latest_spec.
  split.
  - intros ->. unfold py_floordiv. simpl.
    destruct (negb _); [eauto|].
    destruct (enrich_all _ _ _); simpl; eauto.
  - intros Hl Ho. unfold py_floordiv.
    rewrite (proj2 (Z.eqb_neq limit 0)) by lia.
    destruct (negb _); [reflexivity|].
    destruct (enrich_all _ _ _) as [enriched|m]; [|reflexivity].
    rewrite py_slice_nonneg by lia. reflexivity.
Qed.

(** ** Single-flight sync *)

Lemma keeps_status_ret {A} (a : A) : keeps_status (ret a).
Proof. intros e s. reflexivity. Qed.
Lemma keeps_status_mret {A} (a : A) : keeps_status (mret (M := M) a).
Proof. intros e s. reflexivity. Qed.
Lemma keeps_status_raise {A} msg : keeps_status (raise (A := A) msg).
Proof. intros e s. reflexivity. Qed.
Lemma keeps_status_get_env : keeps_status get_env.
Proof. intros e s. reflexivity. Qed.
Lemma keeps_status_get_state : keeps_status get_state.
Proof. intros e s. reflexivity. Qed.
Lemma keeps_status_lift {A} (r : res A) : keeps_status (lift r).
Proof. destruct r; intros e s; reflexivity. Qed.
Lemma keeps_status_modify f :
  (forall s, sync_status (f s) = sync_status s) -> keeps_status (modify f).
Proof. intros Hf e s. apply Hf. Qed.

Lemma keeps_status_bind {A B} (m : M A) (k : A -> M B) :
  keeps_status m -> (forall a, keeps_status (k a)) -> keeps_status (bind m k).
Proof.
  intros Hm Hk e s. unfold bind.
  specialize (Hm e s). destruct (m e s) as [[a|msg] s'] eqn:E; simpl in *.
  - rewrite Hk. exact Hm.
  - exact Hm.
Qed.

Lemma keeps_status_mbind {A B} (m : M A) (k : A -> M B) :
  keeps_status m -> (forall a, keeps_status (k a)) -> keeps_status (mbind k m).
Proof. apply keeps_status_bind. Qed.

Lemma keeps_status_catch {A} (m : M A) (h : string -> M A) :
  keeps_status m -> (forall msg, keeps_status (h msg)) -> keeps_status (catch m h).
Proof.
  intros Hm Hh e s. unfold catch.
  specialize (Hm e s). destruct (m e s) as [[a|msg] s'] eqn:E; simpl in *.
  - exact Hm.
  - rewrite Hh. exact Hm.
Qed.

Create HintDb keeps.
#[local] Hint Resolve keeps_status_ret keeps_status_mret keeps_status_raise
  keeps_status_get_env keeps_status_get_state keeps_status_lift
  keeps_status_bind keeps_status_mbind keeps_status_catch : keeps.

Ltac keeps_tac :=
  repeat first
    [ progress intros
    | apply keeps_status_modify; intros; reflexivity
    | solve [eauto with keeps]
    | apply keeps_status_bind
    | apply keeps_status_mbind
    | apply keeps_status_catch
    | case_match ].

Lemma keeps_status_check_read : keeps_status check_read.
Proof. unfold check_read. keeps_tac. Qed.
#[local] Hint Resolve keeps_status_check_read : keeps.

Lemma keeps_status_get_latest dt iid : keeps_status (get_latest_data_from_gcs dt iid).
Proof.
  unfold get_latest_data_from_gcs, blob_exists, download_json, list_blobs.
  keeps_tac.
Qed.

Lemma keeps_status_store dt data iid : keeps_status (store_data_in_gcs dt data iid).
Proof. unfold store_data_in_gcs, upload, log_effect. keeps_tac. Qed.

Lemma keeps_status_poll dt : keeps_status (poll_givebutter_api dt).
Proof. unfold poll_givebutter_api, log_effect, append_error. keeps_tac. Qed.

Lemma keeps_status_summary : keeps_status generate_donor_summary.
Proof.
  unfold generate_donor_summary, append_error.
  apply keeps_status_catch; [|keeps_tac].
  repeat (apply keeps_status_bind; [apply keeps_status_get_latest|intros]).
  keeps_tac; apply keeps_status_store.
Qed.

Lemma sync_entry_spec e s :
  sync_entry e s =
  if String.eqb (sync_status s) "syncing" then (Ok false, s)
  else (Ok true, mkState "syncing" [] (last_sync_time s) (objects s) (trace s)).
Proof.
  unfold sync_entry, set_status, set_errors. unfold_monad.
  destruct (String.eqb _ _); reflexivity.
Qed.

Lemma n_in_flight_app ts1 ts2 :
  n_in_flight (ts1 ++ ts2) = n_in_flight ts1 + n_in_flight ts2.
Proof. induction ts1 as [|t ts1 IH]; simpl; [reflexivity|]. rewrite IH. lia. Qed.

Lemma n_in_flight_cons t ts :
  n_in_flight (t :: ts) = (if in_flight t then 1 else 0) + n_in_flight ts.
Proof. reflexivity. Qed.

Lemma single_flight_step e l l' :
  single_flight l -> loop_step e l l' -> single_flight l'.
Proof.
  unfold single_flight.
  intros [Hle Hiff] Hstep.
  destruct Hstep; simpl in *;
    rewrite ?n_in_flight_app, ?n_in_flight_cons in *; simpl in *.
  - split; [lia|]. rewrite Hiff. lia.
  - split; [lia|]. rewrite Hiff. lia.
  - rewrite sync_entry_spec in H.
    destruct (String.eqb (sync_status s) "syncing") eqn:E; [discriminate|].
    injection H as <-. simpl.
    assert (sync_status s <> "syncing") as Hn by (apply String.eqb_neq; exact E).
    assert (n_in_flight ts1 + n_in_flight ts2 <> 1) by (intros Hc; apply Hn, Hiff; exact Hc).
    split; [lia|]. split; [lia|reflexivity].
  - pose proof (keeps_status_poll dt e s) as K. rewrite H in K. simpl in K.
    rewrite K. split; [lia|exact Hiff].
  - split; [lia|]. split; [intros Hc; discriminate Hc|].
    intros Hc. assert (sync_status s = "syncing") as Hs by (apply Hiff; lia).
    lia.
  - split; [lia|exact Hiff].
  - pose proof (keeps_status_store dt data "givebutter" e s) as K. rewrite H in K.
    simpl in K. rewrite K. split; [lia|exact Hiff].
  - split; [lia|]. split; [intros Hc; discriminate Hc|].
    intros Hc. lia.
  - pose proof (keeps_status_summary e s) as K. rewrite H in K. simpl in K.
    rewrite K. split; [lia|exact Hiff].
  - split; [lia|]. split; [intros Hc; discriminate Hc|]. intros Hc. lia.
Qed.

Lemma single_flight_reachable e l :
  rtc (loop_step e) initial_loop l -> single_flight l.
Proof.
  assert (single_flight initial_loop) as H0.
  { unfold single_flight; simpl. split; [lia|]. split; [discriminate|lia]. }
  intros Hr. revert H0.
  induction Hr as [l0|l0 l1 l2 Hs Hr IH]; intros H0; [exact H0|].
  apply IH. eapply single_flight_step; eauto.
Qed.

Lemma run_entries_syncing k e s :
  sync_status s = "syncing" -> n_true (fst (run_entries k e s)) = 0 /\ snd (run_entries k e s) = s.
Proof.
  intros Hs. induction k as [|k IH]; simpl; [auto|].
  rewrite sync_entry_spec, Hs. simpl.
  destruct (run_entries k e s) as [bs s''] eqn:E. simpl in *. exact IH.
Qed.

(** C1: a call of [sync_all_data] while the status is ["syncing"] returns
    without changing the state; in every run of the event loop at most one
    cycle is past its entry; and of [k >= 1] triggers meeting a non-syncing
    status exactly one enters the body. *)
Theorem sync_single_flight :
  (forall e s, sync_status s = "syncing" -> sync_all_data e s = (Ok tt, s)) /\
  (forall e l, rtc (loop_step e) initial_loop l -> single_flight l) /\
  (forall e s k, sync_status s <> "syncing" -> 1 <= k ->
     n_true (fst (run_entries k e s)) = 1).
Proof.
  split; [|split].
  - intros e s Hs. unfold sync_all_data. unfold bind at 1.
    rewrite sync_entry_spec, Hs. reflexivity.
  - apply single_flight_reachable.
  - intros e s [|k] Hs Hk; [lia|]. simpl.
    rewrite sync_entry_spec.
    rewrite (proj2 (String.eqb_neq _ _) Hs).
    destruct (run_entries k e _) as [bs s''] eqn:E. simpl.
    pose proof (run_entries_syncing k e
                  (mkState "syncing" [] (last_sync_time s) (objects s) (trace s))
                  eq_refl) as [H _].
    rewrite E in H. simpl in H. rewrite H. reflexivity.
Qed.

(** ** The fetch-and-store loop *)

Lemma poll_spec dt e s :
  exists data errs,
    poll_givebutter_api dt e s =
    (Ok data, mkState (sync_status s) (sync_errors s ++ errs) (last_sync_time s)
                (objects s) (trace s ++ [EFetch dt])).
Proof.
  unfold poll_givebutter_api, log_effect, append_error, lift.
  unfold_monad. run_monad.
  all: eexists _, _; try (rewrite app_nil_r; reflexivity).
  all: reflexivity.
Qed.

Lemma store_spec dt data iid e s :
  store_data_in_gcs dt data iid e s =
  (let name := blob_name iid dt (clock e) in
   match write_fault e name with
   | Some msg => (Exc msg, mkState (sync_status s) (sync_errors s) (last_sync_time s)
                             (objects s) (trace s ++ [EPut name]))
   | None => (Ok tt, mkState (sync_status s) (sync_errors s) (last_sync_time s)
                       (<[name := BJson data]> (objects s)) (trace s ++ [EPut name]))
   end).
Proof.
  unfold store_data_in_gcs, upload, log_effect. unfold_monad. simpl.
  destruct (write_fault e _); reflexivity.
Qed.

Lemma sync_collections_write_fail (dts : list string) (i : nat) dt msg e s :
  dts !! i = Some dt ->
  write_fault e (blob_name "givebutter" dt (clock e)) = Some msg ->
  (forall j dt', j < i -> dts !! j = Some dt' ->
     write_fault e (blob_name "givebutter" dt' (clock e)) = None) ->
  exists s1,
    sync_collections dts e s = (Exc msg, s1) /\
    sync_status s1 = sync_status s /\
    trace s1 = (trace s ++ cycle_effects (take (S i) dts) (clock e))%list.
Proof.
  revert i s. induction dts as [|d dts IH]; intros i s Hi Hf Hbefore; [discriminate|].
  simpl. unfold mbind, M_bind, bind.
  destruct (poll_spec d e s) as (data & errs & ->).
  rewrite store_spec. simpl.
  destruct i as [|i].
  - simpl in Hi. injection Hi as <-. rewrite Hf.
    eexists; split; [reflexivity|]. simpl. split; [reflexivity|].
    rewrite <- app_assoc. reflexivity.
  - rewrite (Hbefore 0 d) by (simpl; auto || lia).
    simpl in Hi.
    match goal with |- context [sync_collections dts e ?st] =>
      destruct (IH i st Hi Hf) as (s1 & E & Hst & Htr) end.
    { intros j dt' Hj Hjd. apply (Hbefore (S j)); [lia|exact Hjd]. }
    eexists; split; [exact E|]. split; [exact Hst|].
    rewrite Htr. simpl. rewrite <- !app_assoc. reflexivity.
Qed.

(** C6: a storage write fault on the [i]-th collection aborts the cycle:
    no later fetch or store runs (the trace stops at that write), the status
    becomes ["failed"], ["Sync Error: " ++ msg] is the last error, and the
    fault is re-raised to the caller. *)
Theorem storage_write_error_fatal (i : nat) (dt msg : string) (e : env) (s : state) :
  sync_status s <> "syncing" ->
  data_types !! i = Some dt ->
  write_fault e (blob_name "givebutter" dt (clock e)) = Some msg ->
  (forall j dt', j < i -> data_types !! j = Some dt' ->
     write_fault e (blob_name "givebutter" dt' (clock e)) = None) ->
  exists s1,
    sync_all_data e s = (Exc msg, s1) /\
    sync_status s1 = "failed" /\
    last (sync_errors s1) = Some ("Sync Error: " +:+ msg) /\
    trace s1 = (trace s ++ cycle_effects (take (S i) data_types) (clock e))%list.
Proof.
  intros Hs Hi Hf Hbefore.
  unfold sync_all_data. unfold bind at 1. rewrite sync_entry_spec.
  rewrite (proj2 (String.eqb_neq _ _) Hs).
  unfold sync_body, catch at 1, mbind at 1, M_bind at 1, bind at 1.
  destruct (sync_collections_write_fail data_types i dt msg e
              (mkState "syncing" [] (last_sync_time s) (objects s) (trace s))
              Hi Hf Hbefore) as (s1 & -> & _ & Htr).
  unfold set_status, append_error. unfold_monad. simpl.
  eexists; split; [reflexivity|]. simpl.
  split; [reflexivity|]. split; [|exact Htr].
  rewrite last_app. reflexivity.
Qed.

(** ** Fallback to mock data on upstream errors *)

Lemma prefix_app_self (sub rest : string) : String.prefix sub (sub +:+ rest) = true.
Proof.
  induction sub as [|c sub IH]; simpl; [destruct rest; reflexivity|].
  destruct (ascii_dec c c) as [_|n]; [exact IH|congruence].
Qed.

Lemma str_contains_app (pre sub rest : string) :
  str_contains sub (pre +:+ sub +:+ rest) = true.
Proof.
  induction pre as [|c pre IH]; simpl.
  - destruct sub as [|c sub]; simpl.
    + destruct rest; reflexivity.
    + destruct (ascii_dec c c) as [_|n]; [|congruence].
      rewrite prefix_app_self. reflexivity.
  - rewrite IH. apply orb_true_r.
Qed.

Lemma envelope_items_envelope items m :
  envelope_items (envelope items m) = items.
Proof. reflexivity. Qed.

Lemma mock_transactions_eq t :
  generate_mock_data t "transactions" =
  envelope (map (mock_transaction (isoformat t)) (seq 0 186)) (meta 186 1 186).
Proof. reflexivity. Qed.

Lemma mock_plans_eq t :
  generate_mock_data t "plans" =
  envelope (map (mock_plan (isoformat t)) (seq 0 78)) (meta 78 1 100).
Proof. reflexivity. Qed.

Lemma mock_contacts_eq t :
  generate_mock_data t "contacts" =
  envelope (map (mock_contact (isoformat t)) (seq 0 168)) (meta 168 1 168).
Proof. reflexivity. Qed.

Lemma mock_contact_of (t : timestamp) (j : nat) :
  j < 168 ->
  exists c, c ∈ envelope_items (generate_mock_data t "contacts") /\
            json_field c "id" = Some (JStr ("contact_" +:+ pretty (S j))).
Proof.
  intros Hj. rewrite mock_contacts_eq.
  exists (mock_contact (isoformat t) j). split; [|reflexivity].
  rewrite envelope_items_envelope.
  apply list_elem_of_In, in_map_iff. exists j. split; [reflexivity|].
  apply in_seq. lia.
Qed.

Lemma mock_linkage t x :
  x ∈ (envelope_items (generate_mock_data t "transactions") ++
       envelope_items (generate_mock_data t "plans"))%list ->
  exists c, c ∈ envelope_items (generate_mock_data t "contacts") /\
            json_field x "contact_id" = json_field c "id".
Proof.
  rewrite mock_transactions_eq, mock_plans_eq, !envelope_items_envelope.
  intros Hx. apply elem_of_app in Hx as [Hx|Hx];
    apply list_elem_of_In, in_map_iff in Hx as (i & <- & Hi); apply in_seq in Hi.
  - destruct (mock_contact_of t (i mod 168)) as (c & Hc & Hid).
    { apply Nat.mod_upper_bound. lia. }
    exists c. split; [exact Hc|]. rewrite Hid.
    rewrite <- Nat.add_1_r. reflexivity.
  - destruct (mock_contact_of t i) as (c & Hc & Hid); [lia|].
    exists c. split; [exact Hc|]. rewrite Hid. reflexivity.
Qed.

(** C7: when the upstream fetch of a collection raises, [poll_givebutter_api]
    does not raise: it appends exactly one error naming the collection and
    returns the mock dataset, which has the envelope shape of live data and
    whose transactions and plans link only to mock contacts. *)
Theorem fetch_error_falls_back_to_mock (dt key msg : string) (e : env) (s : state) :
  GIVEBUTTER_API_KEY e = Some key -> key <> "" ->
  upstream e dt = Exc msg ->
  let err := "API Error (" +:+ dt +:+ "): " +:+ msg in
  poll_givebutter_api dt e s =
    (Ok (generate_mock_data (clock e) dt),
     mkState (sync_status s) (sync_errors s ++ [err]) (last_sync_time s)
             (objects s) (trace s ++ [EFetch dt])) /\
  str_contains dt err = true /\
  envelope_shaped (generate_mock_data (clock e) dt) /\
  (forall x, x ∈ (envelope_items (generate_mock_data (clock e) "transactions") ++
                  envelope_items (generate_mock_data (clock e) "plans"))%list ->
   exists c, c ∈ envelope_items (generate_mock_data (clock e) "contacts") /\
             json_field x "contact_id" = json_field c "id").
Proof.
  intros Hk Hne Hup err.
  split; [|split; [|split]].
  - unfold poll_givebutter_api, log_effect, append_error, lift.
    unfold_monad. simpl. rewrite Hk.
    destruct key as [|c key]; [congruence|].
    rewrite Hup. reflexivity.
  - apply (str_contains_app "API Error (").
  - unfold generate_mock_data, envelope_shaped.
    repeat case_match; eauto.
  - apply mock_linkage.
Qed.

(** ** Snapshot keys *)

Lemma str_length_app (a b : string) :
  String.length (a +:+ b) = String.length a + String.length b.
Proof. induction a as [|c a IH]; simpl; auto. Qed.

Lemma str_app_eq_len (a b c d : string) :
  String.length a = String.length c -> a +:+ b = c +:+ d -> a = c /\ b = d.
Proof.
  revert c. induction a as [|x a IH]; intros [|y c] Hl He; simpl in *;
    try discriminate; auto.
  injection He as -> He. injection Hl as Hl.
  destruct (IH c Hl He) as [-> ->]. auto.
Qed.

Lemma pad_length k n : String.length (pad k n) = k.
Proof.
  revert n. induction k as [|k IH]; intros n; simpl; [reflexivity|].
  rewrite str_length_app, IH. simpl. lia.
Qed.

Lemma digit_char_inj d d' : d < 10 -> d' < 10 -> digit_char d = digit_char d' -> d = d'.
Proof.
  intros Hd Hd' E. unfold digit_char in E.
  apply (f_equal nat_of_ascii) in E.
  rewrite !nat_ascii_embedding in E by lia. lia.
Qed.

Lemma pad_inj k n m : pad k n = pad k m -> n mod 10 ^ k = m mod 10 ^ k.
Proof.
  revert n m. induction k as [|k IH]; intros n m E; [rewrite !Nat.pow_0_r, !Nat.mod_1_r; reflexivity|].
  cbn [pad] in E. apply str_app_eq_len in E as [E1 E2]; [|rewrite !pad_length; reflexivity].
  apply (f_equal (fun s => match s with String c _ => c | EmptyString => "0"%char end)) in E2.
  cbv beta iota in E2.
  apply digit_char_inj in E2; try (apply Nat.mod_upper_bound; lia).
  apply IH in E1.
  rewrite !Nat.pow_succ_r', !Nat.Div0.mod_mul_r.
  rewrite E1, E2. reflexivity.
Qed.

Lemma pad_inj_bounded k n m : n < 10 ^ k -> m < 10 ^ k -> pad k n = pad k m -> n = m.
Proof.
  intros Hn Hm E. apply pad_inj in E. rewrite !Nat.mod_small in E; auto.
Qed.

Lemma strftime_key_length t : String.length (strftime_key t) = 15.
Proof. unfold strftime_key. rewrite !str_length_app, !pad_length. reflexivity. Qed.

Lemma strftime_key_inj t t' :
  valid_ts t -> valid_ts t' -> strftime_key t = strftime_key t' -> t = t'.
Proof.
  destruct t as [y mo d h mi se], t' as [y' mo' d' h' mi' se'].
  unfold valid_ts, strftime_key; cbn [ts_year ts_month ts_day ts_hour ts_minute ts_second].
  intros (Hy & Hmo & Hd & Hh & Hmi & Hse) (Hy' & Hmo' & Hd' & Hh' & Hmi' & Hse') E.
  apply str_app_eq_len in E as [Ey E]; [|rewrite !pad_length; reflexivity].
  apply str_app_eq_len in E as [Emo E]; [|rewrite !pad_length; reflexivity].
  apply str_app_eq_len in E as [Ed E]; [|rewrite !pad_length; reflexivity].
  apply (inj (String.append "_")) in E.
  apply str_app_eq_len in E as [Eh E]; [|rewrite !pad_length; reflexivity].
  apply str_app_eq_len in E as [Emi Ese]; [|rewrite !pad_length; reflexivity].
  assert (Hbig : 9999 < 10 ^ 4) by (apply Nat.ltb_lt; vm_compute; reflexivity).
  apply pad_inj_bounded in Ey; [|eapply Nat.le_lt_trans; [apply Hy|exact Hbig]
                                |eapply Nat.le_lt_trans; [apply Hy'|exact Hbig]].
  apply pad_inj_bounded in Emo, Ed, Eh, Emi, Ese; simpl; try lia.
  subst. reflexivity.
Qed.

Lemma blob_name_length iid dt t :
  String.length (blob_name iid dt t) =
  String.length iid + String.length dt + 38.
Proof.
  unfold blob_name. rewrite !str_length_app, strftime_key_length. simpl. lia.
Qed.

Lemma blob_name_inj iid dt dt' t t' :
  dt ∈ written_types -> dt' ∈ written_types -> valid_ts t -> valid_ts t' ->
  blob_name iid dt t = blob_name iid dt' t' -> dt = dt' /\ t = t'.
Proof.
  intros Hdt Hdt' Ht Ht' E.
  assert (dt = dt') as <-.
  { pose proof (f_equal String.length E) as L. rewrite !blob_name_length in L.
    unfold written_types in Hdt, Hdt'.
    repeat (apply elem_of_cons in Hdt as [->|Hdt]); try (apply elem_of_nil in Hdt; contradiction);
    repeat (apply elem_of_cons in Hdt' as [->|Hdt']); try (apply elem_of_nil in Hdt'; contradiction);
    simpl in L; first [reflexivity | lia]. }
  split; [reflexivity|].
  unfold blob_name in E.
  apply (inj (String.append "givebutter-data/")) in E.
  apply (inj (String.append iid)) in E.
  apply (inj (String.append "/")) in E.
  apply (inj (String.append dt)) in E.
  apply (inj (String.append "/")) in E.
  apply str_app_eq_len in E as [E _]; [|rewrite !strftime_key_length; reflexivity].
  apply strftime_key_inj; assumption.
Qed.

Lemma store_other_key dt data iid e s k :
  k <> blob_name iid dt (clock e) ->
  objects (snd (store_data_in_gcs dt data iid e s)) !! k = objects s !! k.
Proof.
  intros Hk. rewrite store_spec. simpl.
  destruct (write_fault e _); simpl; [reflexivity|].
  apply lookup_insert_ne. congruence.
Qed.

(** C3 (amended): keys of one type and namespace are equal exactly when the
    timestamps agree to the second; a snapshot survives any sequence of
    writes none of which is to its type in the same second; and a second
    write to the same type and namespace within the same second lands under
    the same key and overwrites the first, leaving no trace of it. *)
Theorem snapshot_keys_by_second (iid dt : string) (t : timestamp) :
  dt ∈ written_types -> valid_ts t ->
  (forall t', valid_ts t' -> (blob_name iid dt t = blob_name iid dt t' <-> t = t')) /\
  (forall ws e s,
     Forall (fun w => w.1.1 ∈ written_types /\ valid_ts w.2) ws ->
     (forall dt' d t', (dt', d, t') ∈ ws -> dt' = dt -> t' <> t) ->
     objects (store_all ws e s) !! blob_name "givebutter" dt t =
     objects s !! blob_name "givebutter" dt t) /\
  (forall d1 d2 e1 e2 s,
     clock e1 = t -> clock e2 = t ->
     write_fault e1 (blob_name iid dt t) = None -> write_fault e2 (blob_name iid dt t) = None ->
     let s1 := snd (store_data_in_gcs dt d1 iid e1 s) in
     let s2 := snd (store_data_in_gcs dt d2 iid e2 s1) in
     objects s1 !! blob_name iid dt t = Some (BJson d1) /\
     objects s2 = <[blob_name iid dt t := BJson d2]> (objects s)).
Proof.
  intros Hdt Ht. split; [|split].
  - intros t' Ht'. split; [|intros ->; reflexivity].
    intros E. apply blob_name_inj in E as [_ E]; auto.
  - intros ws. induction ws as [|[[dt' d] t'] ws IH]; intros e s Hall Hno; [reflexivity|].
    apply Forall_cons in Hall as [[Hdt' Ht'] Hall]. simpl in Hdt', Ht'.
    simpl. rewrite IH; [|exact Hall|].
    + apply store_other_key. simpl. intros E.
      apply blob_name_inj in E as [Ed Et]; auto.
      apply (Hno dt' d t'); [left| |]; simpl in *; congruence.
    + intros dt'' d'' t'' Hin. apply (Hno dt'' d'' t''). right. exact Hin.
  - intros d1 d2 e1 e2 s He1 He2 Hw1 Hw2 s1 s2. subst s1 s2.
    rewrite !store_spec. rewrite He1. simpl. rewrite Hw1. simpl.
    rewrite He2. rewrite Hw2. simpl. split.
    + apply lookup_insert_eq.
    + apply insert_insert_eq.
Qed.

Lemma snapshot_keys_by_second_witness :
  "contacts" ∈ written_types /\ valid_ts sample_time /\
  objects (snd (store_data_in_gcs "contacts" (envelope [] (meta 1 1 100)) "givebutter" sample_env
                 (snd (store_data_in_gcs "contacts" (envelope [] (meta 0 1 100)) "givebutter"
                         sample_env empty_state)))) =
    {[blob_name "givebutter" "contacts" sample_time := BJson (envelope [] (meta 1 1 100))]} /\
  objects (store_all [("plans", JArr [], sample_time)] sample_env
             (snd (store_data_in_gcs "contacts" (JArr []) "givebutter" sample_env empty_state)))
    !! blob_name "givebutter" "contacts" sample_time =
  objects (snd (store_data_in_gcs "contacts" (JArr []) "givebutter" sample_env empty_state))
    !! blob_name "givebutter" "contacts" sample_time.
Proof.
  assert (Hv : valid_ts sample_time) by (unfold valid_ts; simpl; split; [split; [lia|apply Nat.leb_le; vm_compute; reflexivity]|lia]).
  assert (Hin : "contacts" ∈ written_types) by (left).
  split; [exact Hin|]. split; [exact Hv|]. split.
  { rewrite (proj2 (proj2 (proj2 (snapshot_keys_by_second "givebutter" "contacts" sample_time Hin Hv))
       (envelope [] (meta 0 1 100)) (envelope [] (meta 1 1 100)) sample_env sample_env empty_state
       eq_refl eq_refl eq_refl eq_refl)).
    reflexivity. }
  apply (proj1 (proj2 (snapshot_keys_by_second "givebutter" "contacts" sample_time Hin Hv))).
  - constructor; [|constructor]. split; [simpl; right; right; left|exact Hv].
  - intros dt' d t' Hw Hdt. apply list_elem_of_singleton in Hw.
    injection Hw as -> -> ->. discriminate.
Defined.

(** C3: two writes to the same type and namespace within one second get
    the same key, and the second overwrites the first. *)
Lemma snapshot_same_second_overwrites :
  let p1 := envelope [] (meta 0 1 100) in
  let p2 := envelope [] (meta 1 1 100) in
  let s1 := snd (store_data_in_gcs "contacts" p1 "givebutter" sample_env empty_state) in
  let s2 := snd (store_data_in_gcs "contacts" p2 "givebutter" sample_env s1) in
  objects s1 !! blob_name "givebutter" "contacts" sample_time = Some (BJson p1) /\
  forall k, objects s2 !! k <> Some (BJson p1).
Proof.
  intros p1 p2 s1 s2. split; [reflexivity|].
  assert (objects s2 = {[blob_name "givebutter" "contacts" sample_time := BJson p2]}) as ->
    by reflexivity.
  intros k. rewrite lookup_singleton.
  case_decide; discriminate.
Qed.

(** ** Summary failures inside a sync cycle *)

Lemma sync_collections_ok dts e s :
  (forall k, write_fault e k = None) ->
  exists s1, sync_collections dts e s = (Ok tt, s1).
Proof.
  intros Hw. revert s. induction dts as [|d dts IH]; intros s; [eexists; reflexivity|].
  simpl. unfold mbind, M_bind, bind.
  destruct (poll_spec d e s) as (data & errs & ->).
  rewrite store_spec. simpl. rewrite Hw. apply IH.
Qed.

Lemma summary_failure_spec e s msg :
  summary_core (latest_snapshot "contacts" e s) (latest_snapshot "transactions" e s)
    (latest_snapshot "plans" e s) = Exc msg ->
  generate_donor_summary e s =
  (Ok tt, mkState (sync_status s) (sync_errors s ++ ["Summary Generation Error: " +:+ msg])
            (last_sync_time s) (objects s) (trace s)).
Proof.
  intros H. unfold generate_donor_summary, catch, bind.
  rewrite !get_latest_spec. rewrite H. reflexivity.
Qed.

Lemma summary_ok e s : exists s', generate_donor_summary e s = (Ok tt, s').
Proof.
  unfold generate_donor_summary, catch.
  destruct (bind _ _ e s) as [[[]|m] s']; eexists; reflexivity.
Qed.

(** C2 (amended): a failing summary computation is caught and recorded as
    ["Summary Generation Error: " ++ msg]; with no storage write fault the
    cycle still returns normally with status ["completed"] and the errors
    the summary step left. *)
Theorem summary_error_recorded_cycle_completes (e : env) (s : state) (msg : string) :
  (summary_core (latest_snapshot "contacts" e s) (latest_snapshot "transactions" e s)
     (latest_snapshot "plans" e s) = Exc msg ->
   generate_donor_summary e s =
   (Ok tt, mkState (sync_status s) (sync_errors s ++ ["Summary Generation Error: " +:+ msg])
             (last_sync_time s) (objects s) (trace s))) /\
  (sync_status s <> "syncing" -> (forall k, write_fault e k = None) ->
   exists s0,
     sync_collections data_types e
       (mkState "syncing" [] (last_sync_time s) (objects s) (trace s)) = (Ok tt, s0) /\
     sync_all_data e s =
     (let s2 := snd (generate_donor_summary e s0) in
      (Ok tt, mkState "completed" (sync_errors s2) (Some (clock e)) (objects s2) (trace s2)))).
Proof.
  split; [apply summary_failure_spec|].
  intros Hst Hw.
  destruct (sync_collections_ok data_types e
              (mkState "syncing" [] (last_sync_time s) (objects s) (trace s)) Hw) as [s0 E].
  exists s0. split; [exact E|].
  destruct (summary_ok e s0) as [s2 Hs2]. rewrite Hs2. simpl.
  unfold sync_all_data, bind at 1. rewrite sync_entry_spec.
  apply String.eqb_neq in Hst. rewrite Hst.
  unfold sync_body, catch, mbind, M_bind, bind, get_env, set_last_sync, set_status, modify.
  rewrite E, Hs2. reflexivity.
Qed.

Lemma summary_error_recorded_cycle_completes_witness :
  (summary_core (latest_snapshot "contacts" malformed_env after_collections)
     (latest_snapshot "transactions" malformed_env after_collections)
     (latest_snapshot "plans" malformed_env after_collections)
   = Exc "'int' object has no attribute 'get'" /\
   generate_donor_summary malformed_env after_collections =
   (Ok tt, mkState (sync_status after_collections)
             (sync_errors after_collections ++
              ["Summary Generation Error: " +:+ "'int' object has no attribute 'get'"])
             (last_sync_time after_collections) (objects after_collections)
             (trace after_collections))) /\
  (sync_status empty_state <> "syncing" /\ (forall k, write_fault malformed_env k = None) /\
   exists s0,
     sync_collections data_types malformed_env
       (mkState "syncing" [] (last_sync_time empty_state) (objects empty_state)
          (trace empty_state)) = (Ok tt, s0) /\
     sync_all_data malformed_env empty_state =
     (let s2 := snd (generate_donor_summary malformed_env s0) in
      (Ok tt, mkState "completed" (sync_errors s2) (Some (clock malformed_env))
                (objects s2) (trace s2)))).
Proof.
  assert (Hc : summary_core (latest_snapshot "contacts" malformed_env after_collections)
     (latest_snapshot "transactions" malformed_env after_collections)
     (latest_snapshot "plans" malformed_env after_collections)
     = Exc "'int' object has no attribute 'get'") by (vm_compute; reflexivity).
  assert (Hs : sync_status empty_state <> "syncing") by discriminate.
  assert (Hw : forall k, write_fault malformed_env k = None) by reflexivity.
  split.
  - split; [exact Hc|].
    exact (proj1 (summary_error_recorded_cycle_completes malformed_env after_collections _) Hc).
  - split; [exact Hs|]. split; [exact Hw|].
    exact (proj2 (summary_error_recorded_cycle_completes malformed_env empty_state
                    "'int' object has no attribute 'get'") Hs Hw).
Defined.

(** C2: a summary failure on a malformed snapshot leaves the cycle
    [completed], not [failed]. *)
Lemma summary_error_cycle_not_failed :
  let r := sync_all_data malformed_env empty_state in
  fst r = Ok tt /\ sync_status (snd r) = "completed" /\
  sync_errors (snd r) = ["Summary Generation Error: 'int' object has no attribute 'get'"].
Proof. vm_compute. repeat split. Qed.

(** ** Monetary aggregation *)

Lemma sum_field_go_int (acc : Z) (txs : list json) (zs : list Z) :
  map int_amount txs = map Some zs ->
  sum_field_go "amount" (JInt acc) txs = Ok (JInt (acc + z_sum zs)).
Proof.
  revert acc zs. induction txs as [|t txs IH]; intros acc zs E.
  - destruct zs; [|discriminate]. simpl. rewrite Z.add_0_r. reflexivity.
  - destruct zs as [|z zs]; [discriminate|]. injection E as Et E.
    destruct t as [| | | | | |fs]; try discriminate. simpl in Et.
    cbn [sum_field_go py_get].
    destruct (dict_lookup "amount" fs) as [[| |a| | | |]|] eqn:D; try discriminate;
      injection Et as <-; simpl; rewrite (IH _ _ E); simpl; f_equal; f_equal; lia.
Qed.

(** C8 (amended): for integer (or missing) amounts the cents total is their
    integer sum, and the dollar value is that sum divided by 100 when it is
    positive and 0 otherwise. *)
Theorem cents_sum_and_dollars (contacts_data transactions_data plans_data : option json)
    (txs : list json) (zs : list Z) (st : summary_stats) (now status : string)
    (errs : list string) :
  snapshot_data transactions_data = Ok (JArr txs) ->
  map int_amount txs = map Some zs ->
  summary_core contacts_data transactions_data plans_data = Ok st ->
  total_amount st = JInt (z_sum zs) /\
  json_field (build_summary st now status errs) "total_amount_cents" = Some (JInt (z_sum zs)) /\
  json_field (build_summary st now status errs) "total_amount_dollars" =
    Some (if (0 <? z_sum zs)%Z then JReal (inject_Z (z_sum zs) / (100 # 1))%Q else JInt 0).
Proof.
  intros Ht Hz Hs.
  assert (Ha : total_amount st = JInt (z_sum zs)).
  { unfold summary_core in Hs. rewrite Ht in Hs.
    destruct (snapshot_data contacts_data) as [c|m]; [|discriminate].
    destruct (snapshot_data plans_data) as [p|m]; [|discriminate].
    cbn [py_iter] in Hs.
    repeat match type of Hs with
    | context [match ?x with Ok _ => _ | Exc _ => _ end] =>
        lazymatch x with
        | sum_field _ _ => fail
        | _ => destruct x; [|discriminate]
        end
    end.
    unfold sum_field in Hs. rewrite (sum_field_go_int 0 txs zs Hz) in Hs.
    repeat match type of Hs with
    | context [match ?x with Ok _ => _ | Exc _ => _ end] => destruct x; [|discriminate]
    end.
    injection Hs as <-. reflexivity. }
  split; [exact Ha|]. split; simpl; rewrite Ha; [reflexivity|].
  unfold dollars. simpl. f_equal.
  destruct (0 <? z_sum zs)%Z eqn:L.
  - apply Z.ltb_lt in L. destruct (Qle_bool _ 0) eqn:Q; [|reflexivity].
    apply Qle_bool_iff in Q. unfold Qle in Q. simpl in Q. lia.
  - apply Z.ltb_ge in L. destruct (Qle_bool _ 0) eqn:Q; [reflexivity|].
    exfalso. assert (Qle_bool (inject_Z (z_sum zs)) 0 = true) as Q'
      by (apply Qle_bool_iff; unfold Qle; simpl; lia). congruence.
Qed.

Lemma cents_sum_and_dollars_witness :
  exists st,
    summary_core None (fixture_snapshot fixture_transactions) None = Ok st /\
    total_amount st = JInt 22171 /\
    json_field (build_summary st "now" "completed" []) "total_amount_dollars" =
      Some (JReal (22171 # 100)).
Proof.
  eexists. split; [vm_compute; reflexivity|].
  destruct (cents_sum_and_dollars None (fixture_snapshot fixture_transactions) None
              fixture_transactions [10000; 9671; 2500]%Z
              (mkStats 3 3 (JInt 22171) 0) "now" "completed" [])
    as (H1 & _ & H3).
  - vm_compute. reflexivity.
  - reflexivity.
  - vm_compute. reflexivity.
  - split; [exact H1|]. rewrite H3. reflexivity.
Defined.

(** C8: a negative cents total is reported as 0 dollars, not as the total
    divided by 100. *)
Lemma negative_total_zero_dollars :
  exists st,
    summary_core None (fixture_snapshot [JObj [("id", JStr "r1"); ("amount", JInt (-500))]]) None
      = Ok st /\
    total_amount st = JInt (-500) /\
    json_field (build_summary st "now" "completed" []) "total_amount_dollars" = Some (JInt 0) /\
    JInt 0 <> JReal (-500 # 100).
Proof. eexists. split; [vm_compute; reflexivity|]. repeat split. discriminate. Qed.

(** ** Donor count *)

Lemma existsb_str_in (s : string) (L : list string) :
  existsb (py_hash_eq (JStr s)) (map JStr L) = bool_decide (s ∈ L).
Proof.
  induction L as [|x L IH]; cbn [existsb map].
  - case_bool_decide as H; [|reflexivity]. apply not_elem_of_nil in H. contradiction.
  - rewrite IH. cbn [py_hash_eq]. destruct (String.eqb_spec s x) as [->|n]; cbn [orb].
    + symmetry. apply bool_decide_eq_true. left.
    + apply bool_decide_ext. rewrite elem_of_cons. naive_solver.
Qed.

Lemma add_ids_strings (field : string) (items : list json) (L : list string) :
  NoDup L -> Forall (string_or_missing field) items ->
  exists L', add_ids field items (map JStr L) = Ok (map JStr L') /\ NoDup L' /\
    (forall x, x ∈ L' <-> x ∈ L \/ x ∈ id_strs field items).
Proof.
  revert L. induction items as [|it items IH]; intros L HL Hf.
  - exists L. split; [reflexivity|]. split; [exact HL|].
    intros x. simpl. set_solver.
  - apply Forall_cons in Hf as [(fs & -> & Hk) Hf].
    cbn [add_ids py_get].
    destruct Hk as [Hk|[s Hk]]; rewrite Hk.
    + simpl. destruct (IH L HL Hf) as (L' & E & ND & Hin).
      exists L'. split; [exact E|]. split; [exact ND|].
      intros x. rewrite Hin. simpl. rewrite Hk. reflexivity.
    + cbn [py_truthy]. destruct (String.eqb_spec s "") as [->|ns]; simpl.
      * destruct (IH L HL Hf) as (L' & E & ND & Hin).
        exists L'. split; [exact E|]. split; [exact ND|].
        intros x. rewrite Hin. simpl. rewrite Hk. reflexivity.
      * unfold py_set_add. simpl. rewrite existsb_str_in.
        destruct (bool_decide_reflect (s ∈ L)) as [Hs|Hs].
        -- destruct (IH L HL Hf) as (L' & E & ND & Hin).
           exists L'. split; [exact E|]. split; [exact ND|].
           intros x. rewrite Hin. simpl. rewrite Hk.
           destruct (String.eqb_spec s "") as [->|_]; [congruence|].
           set_solver.
        -- assert (Hm : (map JStr L ++ [JStr s])%list = map JStr (L ++ [s])%list)
             by (rewrite map_app; reflexivity).
           rewrite Hm.
           destruct (IH (L ++ [s])%list) as (L' & E & ND & Hin); [|exact Hf|].
           { apply NoDup_app. split; [exact HL|]. split; [|apply NoDup_singleton].
             intros y Hy Hy'. apply list_elem_of_singleton in Hy'. subst. contradiction. }
           exists L'. split; [exact E|]. split; [exact ND|].
           intros x. rewrite Hin. simpl. rewrite Hk.
           destruct (String.eqb_spec s "") as [->|_]; [congruence|].
           set_solver.
Qed.

(** C4 (amended): for string or missing ids, the donor count is the number
    of distinct non-empty strings among the contact ids and the transaction
    contact ids. *)
Theorem donor_count_union (contacts_data transactions_data plans_data : option json)
    (cs ts : list json) (st : summary_stats) :
  snapshot_data contacts_data = Ok (JArr cs) ->
  snapshot_data transactions_data = Ok (JArr ts) ->
  Forall (string_or_missing "id") cs ->
  Forall (string_or_missing "contact_id") ts ->
  summary_core contacts_data transactions_data plans_data = Ok st ->
  total_donors st =
    Z.of_nat (size (list_to_set (id_strs "id" cs ++ id_strs "contact_id" ts)%list : gset string)).
Proof.
  intros Hc Ht Fc Ft Hs.
  destruct (add_ids_strings "id" cs [] (NoDup_nil_2) Fc) as (L1 & E1 & ND1 & In1).
  destruct (add_ids_strings "contact_id" ts L1 ND1 Ft) as (L2 & E2 & ND2 & In2).
  unfold summary_core in Hs. rewrite Hc, Ht in Hs.
  destruct (snapshot_data plans_data) as [p|m]; [|discriminate].
  cbn [py_iter] in Hs. simpl map in E1. rewrite E1, E2 in Hs.
  repeat match type of Hs with
  | context [match ?x with Ok _ => _ | Exc _ => _ end] => destruct x; [|discriminate]
  end.
  injection Hs as <-. simpl. f_equal.
  rewrite length_map, <- (size_list_to_set (C := gset string) L2 ND2). f_equal.
  apply set_eq. intros x. rewrite !elem_of_list_to_set, elem_of_app, In2, In1.
  set_solver.
Qed.

Lemma donor_count_union_witness :
  exists st,
    summary_core (fixture_snapshot fixture_contacts)
      (fixture_snapshot fixture_union_transactions) None = Ok st /\
    total_donors st =
      Z.of_nat (size (list_to_set (id_strs "id" fixture_contacts ++
                                   id_strs "contact_id" fixture_union_transactions)%list
                      : gset string)) /\
    total_donors st = 4%Z.
Proof.
  eexists. split; [vm_compute; reflexivity|].
  split.
  - apply (donor_count_union (fixture_snapshot fixture_contacts)
             (fixture_snapshot fixture_union_transactions) None
             fixture_contacts fixture_union_transactions).
    + reflexivity.
    + reflexivity.
    + repeat (apply List.Forall_cons; [eexists; split; [reflexivity| right; eexists; reflexivity]|]).
      apply List.Forall_nil.
    + repeat (apply List.Forall_cons; [eexists; split; [reflexivity| right; eexists; reflexivity]|]).
      apply List.Forall_nil.
    + vm_compute. reflexivity.
  - reflexivity.
Defined.

(** C4: a contact whose id is the empty string is not counted, although it
    belongs to the union of the contact ids. *)
Lemma empty_id_not_counted :
  exists st,
    summary_core (fixture_snapshot [JObj [("id", JStr "")]]) (fixture_snapshot []) None = Ok st /\
    total_donors st = 0%Z /\
    size (list_to_set [""] : gset string) = 1.
Proof.
  eexists. split; [vm_compute; reflexivity|]. split; [reflexivity|].
  rewrite size_list_to_set; [reflexivity|]. apply NoDup_singleton.
Qed.

(** ** Reading the latest snapshot *)

Lemma str_compare_le_trans (a b c : string) :
  String.compare a b <> Gt -> String.compare b c <> Gt -> String.compare a c <> Gt.
Proof.
  revert b c. induction a as [|x a IH]; intros [|y b] [|z c]; simpl; try congruence.
  unfold Ascii.compare.
  destruct (N.compare_spec (N_of_ascii x) (N_of_ascii y)) as [Exy|Lxy|Gxy];
  destruct (N.compare_spec (N_of_ascii y) (N_of_ascii z)) as [Eyz|Lyz|Gyz];
  destruct (N.compare_spec (N_of_ascii x) (N_of_ascii z)) as [Exz|Lxz|Gxz];
  try congruence; try lia.
  apply IH.
Qed.

Lemma str_leb_trans (a b c : string) :
  String.leb a b = true -> String.leb b c = true -> String.leb a c = true.
Proof.
  unfold String.leb.
  destruct (String.compare a b) eqn:Hab; try discriminate;
  destruct (String.compare b c) eqn:Hbc; try discriminate;
  destruct (String.compare a c) eqn:Hac; try reflexivity;
  exfalso; eapply (str_compare_le_trans a b c); congruence.
Qed.

Lemma str_leb_refl (a : string) : String.leb a a = true.
Proof.
  unfold String.leb. induction a as [|x a IH]; [reflexivity|].
  simpl. unfold Ascii.compare. rewrite N.compare_refl. exact IH.
Qed.

Lemma str_ltb_false_leb (a b : string) : String.ltb a b = false -> String.leb b a = true.
Proof.
  unfold String.ltb, String.leb. rewrite (String.compare_antisym b a).
  destruct (String.compare a b); simpl; congruence.
Qed.

Lemma str_ltb_leb (a b : string) : String.ltb a b = true -> String.leb a b = true.
Proof. unfold String.ltb, String.leb. destruct (String.compare a b); congruence. Qed.

Lemma max_name_spec (cur : string) (l : list string) :
  In (max_name cur l) (cur :: l) /\
  forall x, In x (cur :: l) -> String.leb x (max_name cur l) = true.
Proof.
  revert cur. induction l as [|y l IH]; intros cur; simpl.
  - split; [left; reflexivity|]. intros x [<-|[]]. apply str_leb_refl.
  - destruct (String.ltb cur y) eqn:L;
      destruct (IH (if String.ltb cur y then y else cur)) as [Hin Hle]; rewrite L in Hin, Hle.
    + split; [simpl in Hin; tauto|].
      intros x [<-|[<-|Hx]].
      * apply (str_leb_trans _ y); [apply str_ltb_leb, L|apply Hle; left; reflexivity].
      * apply Hle. left. reflexivity.
      * apply Hle. right. exact Hx.
    + split; [simpl in Hin; tauto|].
      intros x [<-|[<-|Hx]].
      * apply Hle. left. reflexivity.
      * apply (str_leb_trans _ cur); [apply str_ltb_false_leb, L|apply Hle; left; reflexivity].
      * apply Hle. right. exact Hx.
Qed.

Lemma list_blobs_elem (P : string) (objs : gmap string blob) (k : string) :
  In k (filter (fun k => String.prefix P k = true) (map fst (map_to_list objs))) <->
  String.prefix P k = true /\ is_Some (objs !! k).
Proof.
  rewrite <- list_elem_of_In, list_elem_of_filter, list_elem_of_In, in_map_iff.
  split.
  - intros [Hp [[k' b] [Hk Hin]]]. simpl in Hk. subst k'. split; [exact Hp|].
    apply list_elem_of_In, elem_of_map_to_list in Hin. eauto.
  - intros [Hp [b Hb]]. split; [exact Hp|]. exists (k, b). split; [reflexivity|].
    apply list_elem_of_In, elem_of_map_to_list. exact Hb.
Qed.

(** On the production path the read is a function of the read fault and of
    the fixed production object alone. *)
Lemma production_latest_spec (data_type integration_id : string) (e : env) (s : state) :
  production_path (STORAGE_BUCKET e) data_type = true ->
  get_latest_data_from_gcs data_type integration_id e s =
    (match read_fault e with
     | Some _ => Ok None
     | None =>
         match objects s !! ("donor-sync/production/" +:+ data_type +:+ "_data.json") with
         | Some (BJson d) =>
             match production_transform data_type d with Ok r => Ok r | Exc _ => Ok None end
         | _ => Ok None
         end
     end, s).
Proof.
  intros Hp.
  unfold get_latest_data_from_gcs, blob_exists, download_json, check_read, lift.
  unfold_monad. cbv beta iota zeta. rewrite Hp. simpl.
  destruct (read_fault e) eqn:Hr; [reflexivity|]. simpl.
  destruct (objects s !! ("donor-sync/production/" +:+ data_type +:+ "_data.json"))
    as [[d|d]|] eqn:Ho; simpl; try reflexivity; rewrite Hr; simpl; rewrite Ho; simpl;
    try reflexivity.
  destruct (production_transform data_type d); reflexivity.
Qed.

(** C5 (amended): [get_latest_data_from_gcs] never raises nor changes the
    store, answers [None] on a read fault, and off the production path
    answers [None] for an empty namespace and otherwise the payload under
    the lexicographically greatest key ([None] if it does not parse).  On
    the production path ([STORAGE_BUCKET = 'wlmn-donor-data'] and type
    summary, contacts or transactions) it reads nothing but the fixed object
    [donor-sync/production/{type}_data.json]: two stores that agree on that
    object give the same answer, whatever they hold in the timestamped
    namespace, and without that object the answer is [None]. *)
Theorem latest_is_max_key (data_type integration_id : string) (e : env) (s : state) :
  (exists r, get_latest_data_from_gcs data_type integration_id e s = (Ok r, s)) /\
  (forall m, read_fault e = Some m ->
     get_latest_data_from_gcs data_type integration_id e s = (Ok None, s)) /\
  (production_path (STORAGE_BUCKET e) data_type = false -> read_fault e = None ->
   ((forall k, String.prefix (latest_prefix integration_id data_type) k = true ->
       objects s !! k = None) ->
    get_latest_data_from_gcs data_type integration_id e s = (Ok None, s)) /\
   (forall k b,
      String.prefix (latest_prefix integration_id data_type) k = true ->
      objects s !! k = Some b ->
      (forall k', String.prefix (latest_prefix integration_id data_type) k' = true ->
         is_Some (objects s !! k') -> String.leb k' k = true) ->
      get_latest_data_from_gcs data_type integration_id e s = (Ok (blob_payload b), s))) /\
  (production_path (STORAGE_BUCKET e) data_type = true ->
   (forall s', objects s' !! ("donor-sync/production/" +:+ data_type +:+ "_data.json") =
               objects s !! ("donor-sync/production/" +:+ data_type +:+ "_data.json") ->
      get_latest_data_from_gcs data_type integration_id e s' =
        (fst (get_latest_data_from_gcs data_type integration_id e s), s')) /\
   (objects s !! ("donor-sync/production/" +:+ data_type +:+ "_data.json") = None ->
      get_latest_data_from_gcs data_type integration_id e s = (Ok None, s))).
Proof.
  split.
  { destruct (get_latest_total data_type integration_id e s) as [Hs [r Hr]].
    exists r. destruct (get_latest_data_from_gcs _ _ e s). simpl in *. congruence. }
  split.
  { intros m Hm. unfold get_latest_data_from_gcs, blob_exists, download_json,
      list_blobs, check_read, lift.
    unfold_monad. cbv beta iota zeta.
    destruct (production_path (STORAGE_BUCKET e) data_type); simpl; rewrite Hm; reflexivity. }
  split.
  2: { intros Hp. split.
    - intros s' Hs'. rewrite !(production_latest_spec data_type integration_id e _ Hp).
      simpl. rewrite Hs'. reflexivity.
    - intros Hn. rewrite (production_latest_spec data_type integration_id e _ Hp).
      destruct (read_fault e); [reflexivity|]. rewrite Hn. reflexivity. }
  intros Hp Hr. unfold latest_prefix.
  set (P := "givebutter-data/" +:+ integration_id +:+ "/" +:+ data_type +:+ "/").
  assert (HL : forall k, In k (filter (fun k => String.prefix P k = true)
                                 (map fst (map_to_list (objects s)))) <->
                         String.prefix P k = true /\ is_Some (objects s !! k))
    by (intros; apply list_blobs_elem).
  unfold get_latest_data_from_gcs, list_blobs, download_json, check_read.
  unfold_monad. cbv beta iota zeta. rewrite Hp. simpl. rewrite Hr. fold P.
  set (bl := filter (fun k => String.prefix P k = true) (map fst (map_to_list (objects s))))
    in *.
  clearbody bl. destruct bl as [|b0 bs].
  - split; [reflexivity|].
    intros k b Hk Hb _. exfalso. apply (proj2 (HL k)). split; [exact Hk|eauto].
  - split.
    + intros Hnone. exfalso.
      destruct (proj1 (HL b0) (or_introl eq_refl)) as [Hk [x Hx]].
      rewrite Hnone in Hx by exact Hk. discriminate.
    + intros k b Hk Hb Hmax.
      destruct (max_name_spec b0 bs) as [Hin Hle].
      destruct (proj1 (HL _) Hin) as [Hmk Hms].
      assert (max_name b0 bs = k) as ->.
      { apply String.leb_antisym.
        - apply Hmax; assumption.
        - apply Hle, HL. split; [exact Hk|eauto]. }
      rewrite Hr. simpl. rewrite Hb. destruct b; reflexivity.
Qed.

Lemma latest_is_max_key_witness :
  production_path (STORAGE_BUCKET production_env) "contacts" = true /\
  get_latest_data_from_gcs "contacts" "givebutter" production_env one_write_state =
    (Ok None, one_write_state) /\
  production_path (STORAGE_BUCKET sample_env) "contacts" = false /\
  read_fault sample_env = None /\
  get_latest_data_from_gcs "contacts" "givebutter" sample_env one_write_state =
    (Ok (Some (envelope [] (meta 0 1 100))), one_write_state).
Proof.
  assert (Hp : production_path (STORAGE_BUCKET sample_env) "contacts" = false)
    by reflexivity.
  assert (Hr : read_fault sample_env = None) by reflexivity.
  assert (Hq : production_path (STORAGE_BUCKET production_env) "contacts" = true)
    by reflexivity.
  split; [exact Hq|]. split.
  { apply (proj2 (proj2 (proj2 (proj2 (latest_is_max_key "contacts" "givebutter"
                                   production_env one_write_state))) Hq)).
    reflexivity. }
  split; [exact Hp|]. split; [exact Hr|].
  assert (Ho : objects one_write_state =
               {[blob_name "givebutter" "contacts" sample_time :=
                   BJson (envelope [] (meta 0 1 100))]}) by reflexivity.
  apply (proj2 (proj1 (proj2 (proj2 (latest_is_max_key "contacts" "givebutter" sample_env
                                one_write_state))) Hp Hr)
           (blob_name "givebutter" "contacts" sample_time)
           (BJson (envelope [] (meta 0 1 100)))).
  - vm_compute. reflexivity.
  - rewrite Ho. apply lookup_singleton_Some. split; reflexivity.
  - intros k' _ [b Hb]. rewrite Ho in Hb.
    apply lookup_singleton_Some in Hb as [<- _]. apply str_leb_refl.
Defined.

(** C5: in the production bucket a collection that has been written under
    its timestamped namespace still reads back as absent. *)
Lemma production_bucket_ignores_writes :
  let s1 := snd (store_data_in_gcs "contacts" (envelope [] (meta 0 1 100)) "givebutter"
                   production_env empty_state) in
  objects s1 !! blob_name "givebutter" "contacts" sample_time =
    Some (BJson (envelope [] (meta 0 1 100))) /\
  get_latest_data_from_gcs "contacts" "givebutter" production_env s1 = (Ok None, s1).
Proof. split; vm_compute; reflexivity. Qed.

(** ** Recurring frequency of enriched donors *)

Lemma group_active_plans_spec (ps : list json) (acc m : gmap string (list json)) :
  group_active_plans ps acc = Ok m ->
  forall k, default [] (m !! k) = (default [] (acc !! k) ++ List.filter (active_for k) ps)%list.
Proof.
  revert acc. induction ps as [|p ps IH]; intros acc E k.
  - injection E as <-. simpl. rewrite app_nil_r. reflexivity.
  - destruct p as [| | | | | |fs]; try discriminate.
    cbn [group_active_plans py_get] in E. cbn [List.filter active_for].
    set (st := default JNull (dict_lookup "status" fs)).
    set (cid := default JNull (dict_lookup "contact_id" fs)).
    replace (match dict_lookup "status" fs with Some v => v | None => JNull end) with st in E
      by (unfold st; destruct (dict_lookup "status" fs); reflexivity).
    replace (match dict_lookup "contact_id" fs with Some v => v | None => JNull end) with cid in E
      by (unfold cid; destruct (dict_lookup "contact_id" fs); reflexivity).
    destruct (py_hash_eq st (JStr "active")); simpl in E |- *;
      [|rewrite (IH _ E); reflexivity].
    destruct (py_truthy cid); simpl in E |- *; [|rewrite (IH _ E); reflexivity].
    rewrite (IH _ E).
    destruct (String.eqb_spec (py_str cid) k) as [<-|n].
    + rewrite lookup_insert_eq. simpl. rewrite <- app_assoc. reflexivity.
    + rewrite lookup_insert_ne by congruence. reflexivity.
Qed.

Lemma find_filter_head {A} (f : A -> bool) (l : list A) :
  find f l = head (List.filter f l).
Proof. induction l as [|x l IH]; simpl; [reflexivity|]. destruct (f x); auto. Qed.

Lemma filter_active_dict (k : string) (ps : list json) (p : json) (rest : list json) :
  List.filter (active_for k) ps = p :: rest -> exists fs, p = JObj fs.
Proof.
  intros E. assert (Hin : In p (List.filter (active_for k) ps)) by (rewrite E; left; reflexivity).
  apply filter_In in Hin as [_ Hp]. destruct p; try discriminate. eauto.
Qed.

Lemma enrich_contact_frequency (ps : list json) (plans_by txns_by : gmap string (list json))
    (c r : json) :
  group_active_plans ps ∅ = Ok plans_by ->
  enrich_contact plans_by txns_by c = Ok r ->
  json_field r "recurringFrequency" = Some (spec_recurring_frequency (contact_key c) ps).
Proof.
  intros G E. pose proof (group_active_plans_spec ps ∅ plans_by G) as Hg.
  unfold enrich_contact in E.
  destruct c as [| | | | | |cfs]; try discriminate.
  cbn [py_get] in E. cbn [contact_key].
  set (idv := default JNull (dict_lookup "id" cfs)) in *.
  replace (match dict_lookup "id" cfs with Some v => v | None => JNull end) with idv in E
    by (unfold idv; destruct (dict_lookup "id" cfs); reflexivity).
  rewrite (Hg (py_str idv)) in E. rewrite lookup_empty in E. simpl app in E.
  unfold spec_recurring_frequency. rewrite find_filter_head.
  repeat match type of E with
  | context [match ?x with Ok _ => _ | Exc _ => _ end] =>
      lazymatch x with
      | recurring_frequency _ => fail
      | _ => destruct x; [|discriminate]
      end
  end.
  destruct (recurring_frequency _) as [freq|m] eqn:F; [|discriminate].
  injection E as <-. simpl.
  destruct (List.filter (active_for (py_str idv)) ps) as [|p rest] eqn:Hf; simpl in F |- *.
  - injection F as <-. reflexivity.
  - destruct (filter_active_dict _ _ _ _ Hf) as [pfs ->].
    simpl in F. injection F as <-. simpl.
    destruct (dict_lookup "interval" pfs); reflexivity.
Qed.

Lemma map_res_forall2 {A B} (f : A -> res B) (xs : list A) (ys : list B) :
  map_res f xs = Ok ys -> Forall2 (fun x y => f x = Ok y) xs ys.
Proof.
  revert ys. induction xs as [|x xs IH]; intros ys E; simpl in E.
  - injection E as <-. constructor.
  - destruct (f x) eqn:Fx; [|discriminate].
    destruct (map_res f xs) eqn:R; [|discriminate].
    injection E as <-. constructor; auto.
Qed.

(** C9 (amended): every enriched donor's [recurringFrequency] is the
    interval of the contact's first active plan in fetch order, ["monthly"]
    if that plan has none, and [null] if the contact has no active plan. *)
Theorem recurring_frequency_first_active_plan
    (contacts_data transactions_data plans_data : json) (cs ps rs : list json) :
  py_get contacts_data "data" (JArr []) = Ok (JArr cs) ->
  (if py_truthy plans_data then py_get plans_data "data" (JArr []) else Ok (JArr []))
    = Ok (JArr ps) ->
  enrich_all contacts_data transactions_data plans_data = Ok rs ->
  Forall2 (fun c r => json_field r "recurringFrequency" =
                      Some (spec_recurring_frequency (contact_key c) ps)) cs rs.
Proof.
  intros Hc Hp E. unfold enrich_all in E. rewrite Hc, Hp in E.
  cbn [py_iter] in E.
  destruct (if py_truthy transactions_data then _ else _) as [tr|m]; [|discriminate].
  destruct (group_active_plans ps ∅) as [plans_by|m] eqn:G; [|discriminate].
  destruct (py_iter tr) as [ts|m]; [|discriminate].
  destruct (group_transactions ts ∅) as [txns_by|m]; [|discriminate].
  apply map_res_forall2 in E.
  eapply Forall2_impl; [exact E|].
  intros c r Hr. exact (enrich_contact_frequency ps plans_by txns_by c r G Hr).
Qed.

Lemma recurring_frequency_first_active_plan_witness :
  exists rs,
    enrich_all (envelope fixture_contacts (meta 3 1 3)) (JObj [])
      (envelope fixture_plans (meta 3 1 3)) = Ok rs /\
    Forall2 (fun c r => json_field r "recurringFrequency" =
                        Some (spec_recurring_frequency (contact_key c) fixture_plans))
      fixture_contacts rs /\
    map (fun r => json_field r "recurringFrequency") rs =
      [Some JNull; Some (JStr "quarterly"); Some JNull].
Proof.
  eexists. split; [vm_compute; reflexivity|]. split.
  - apply (recurring_frequency_first_active_plan (envelope fixture_contacts (meta 3 1 3))
             (JObj []) (envelope fixture_plans (meta 3 1 3))).
    + reflexivity.
    + reflexivity.
    + vm_compute. reflexivity.
  - vm_compute. reflexivity.
Defined.

(** C9: an active plan without an [interval] field yields ["monthly"], not
    an absent interval. *)
Lemma missing_interval_defaults_monthly :
  let plan := JObj [("id", JStr "p1"); ("contact_id", JStr "1"); ("status", JStr "active")] in
  json_field plan "interval" = None /\
  exists rs,
    enrich_all (envelope [JObj [("id", JStr "1")]] (meta 1 1 1)) (JObj [])
      (envelope [plan] (meta 1 1 1)) = Ok rs /\
    map (fun r => json_field r "recurringFrequency") rs = [Some (JStr "monthly")].
Proof.
  intros plan. split; [reflexivity|].
  eexists. split; [vm_compute; reflexivity|]. vm_compute. reflexivity.
Qed.

(** ** Single flight, write faults, fetch fallback and paging at concrete worlds *)

Lemma sync_single_flight_witness :
  sync_status syncing_state = "syncing" /\
  sync_all_data sample_env syncing_state = (Ok tt, syncing_state) /\
  single_flight initial_loop /\
  sync_status empty_state <> "syncing" /\
  n_true (fst (run_entries 3 sample_env empty_state)) = 1.
Proof.
  assert (H1 : sync_status syncing_state = "syncing") by reflexivity.
  assert (H2 : sync_status empty_state <> "syncing") by discriminate.
  split; [exact H1|]. split; [exact (proj1 sync_single_flight sample_env syncing_state H1)|].
  split; [exact (proj1 (proj2 sync_single_flight) sample_env initial_loop (rtc_refl _ _))|].
  split; [exact H2|].
  apply (proj2 (proj2 sync_single_flight) sample_env empty_state 3 H2). lia.
Defined.

Lemma storage_write_error_fatal_witness :
  exists s1,
    sync_all_data write_fault_env empty_state = (Exc "403 Forbidden", s1) /\
    sync_status s1 = "failed" /\
    last (sync_errors s1) = Some ("Sync Error: " +:+ "403 Forbidden") /\
    trace s1 = (trace empty_state ++
                cycle_effects (take 3 data_types) (clock write_fault_env))%list.
Proof.
  apply (storage_write_error_fatal 2 "plans" "403 Forbidden" write_fault_env empty_state).
  - discriminate.
  - reflexivity.
  - vm_compute. reflexivity.
  - intros j dt' Hj Hd.
    destruct j as [|[|j]]; [| |lia]; injection Hd as <-; vm_compute; reflexivity.
Defined.

Lemma fetch_error_falls_back_to_mock_witness :
  poll_givebutter_api "contacts" outage_env empty_state =
    (Ok (generate_mock_data sample_time "contacts"),
     mkState "idle" ["API Error (contacts): 503 Service Unavailable"] None ∅
             [EFetch "contacts"]).
Proof.
  destruct (fetch_error_falls_back_to_mock "contacts" "live-key" "503 Service Unavailable"
              outage_env empty_state) as [H _].
  - reflexivity.
  - discriminate.
  - reflexivity.
  - exact H.
Defined.

Lemma get_donor_data_paging_witness :
  (exists msg, get_donor_data 0 5 sample_env empty_state = (Exc msg, empty_state)) /\
  get_donor_data 10 0 sample_env one_write_state =
    (donor_page_spec 10 0 sample_env one_write_state, one_write_state).
Proof.
  split.
  - apply (proj1 (get_donor_data_paging 0 5 sample_env empty_state)). reflexivity.
  - apply (proj2 (get_donor_data_paging 10 0 sample_env one_write_state)); lia.
Defined.

Lemma str_compare_refl (a : string) : String.compare a a = Eq.
Proof.
  induction a as [|x a IH]; [reflexivity|].
  simpl. unfold Ascii.compare. rewrite N.compare_refl. exact IH.
Qed.

Lemma str_compare_app_same_len (a a' b b' : string) :
  String.length a = String.length a' ->
  String.compare (a +:+ b) (a' +:+ b') = lex (String.compare a a') (String.compare b b').
Proof.
  revert a'. induction a as [|x a IH]; intros [|y a'] Hl; simpl in *; try discriminate.
  - reflexivity.
  - injection Hl as Hl. destruct (Ascii.compare x y); simpl; auto.
Qed.

Lemma str_compare_prefix (p a b : string) :
  String.compare (p +:+ a) (p +:+ b) = String.compare a b.
Proof.
  induction p as [|x p IH]; [reflexivity|].
  simpl. unfold Ascii.compare. rewrite N.compare_refl. exact IH.
Qed.

Lemma digit_compare (a b : nat) :
  a < 10 -> b < 10 ->
  String.compare (String (digit_char a) "") (String (digit_char b) "") = Nat.compare a b.
Proof.
  intros Ha Hb.
  destruct a as [|[|[|[|[|[|[|[|[|[|a]]]]]]]]]]; try lia;
  destruct b as [|[|[|[|[|[|[|[|[|[|b]]]]]]]]]]; try lia; reflexivity.
Qed.

Lemma pad_compare (k n m : nat) :
  n < 10 ^ k -> m < 10 ^ k -> String.compare (pad k n) (pad k m) = Nat.compare n m.
Proof.
  revert n m. induction k as [|k IH]; intros n m Hn Hm.
  - simpl in *. assert (n = 0) as -> by lia. assert (m = 0) as -> by lia. reflexivity.
  - cbn [pad]. rewrite str_compare_app_same_len by (rewrite !pad_length; reflexivity).
    rewrite Nat.pow_succ_r' in Hn, Hm.
    rewrite IH by (apply Nat.Div0.div_lt_upper_bound; lia).
    rewrite digit_compare by (apply Nat.mod_upper_bound; lia).
    pose proof (Nat.div_mod_eq n 10). pose proof (Nat.div_mod_eq m 10).
    pose proof (Nat.mod_upper_bound n 10 ltac:(lia)).
    pose proof (Nat.mod_upper_bound m 10 ltac:(lia)).
    unfold lex.
    destruct (Nat.compare_spec (n / 10) (m / 10));
    destruct (Nat.compare_spec (n mod 10) (m mod 10));
    symmetry; apply Nat.compare_lt_iff || apply Nat.compare_gt_iff || apply Nat.compare_eq_iff;
    nia.
Qed.

Lemma lex_assoc_eq c : lex c Eq = c.
Proof. destruct c; reflexivity. Qed.

(** X1: Keys of one type and namespace sort as their timestamps. *)
Lemma blob_name_compare (iid dt : string) (t1 t2 : timestamp) :
  valid_ts t1 -> valid_ts t2 ->
  String.compare (blob_name iid dt t1) (blob_name iid dt t2) = ts_compare t1 t2.
Proof.
  intros (Y1 & M1 & D1 & H1 & Mi1 & S1) (Y2 & M2 & D2 & H2 & Mi2 & S2).
  assert (Hbig : 9999 < 10 ^ 4) by (apply Nat.ltb_lt; vm_compute; reflexivity).
  unfold blob_name. rewrite !str_compare_prefix.
  rewrite str_compare_app_same_len by (rewrite !strftime_key_length; reflexivity).
  rewrite str_compare_refl, lex_assoc_eq.
  unfold strftime_key.
  rewrite !str_compare_app_same_len by (rewrite ?pad_length; reflexivity).
  rewrite !pad_compare by (first [lia | simpl; lia]).
  rewrite str_compare_refl. unfold ts_compare.
  destruct (Nat.compare (ts_year t1) (ts_year t2)),
           (Nat.compare (ts_month t1) (ts_month t2)),
           (Nat.compare (ts_day t1) (ts_day t2)); reflexivity.
Qed.

(** The maximal-key read off the production path (shared by the properties
    of [get_latest_data_from_gcs]). *)
Lemma latest_max_key_read (data_type integration_id : string) (e : env) (s : state)
    (k : string) (b : blob) :
  production_path (STORAGE_BUCKET e) data_type = false -> read_fault e = None ->
  String.prefix (latest_prefix integration_id data_type) k = true ->
  objects s !! k = Some b ->
  (forall k', String.prefix (latest_prefix integration_id data_type) k' = true ->
     is_Some (objects s !! k') -> String.leb k' k = true) ->
  get_latest_data_from_gcs data_type integration_id e s = (Ok (blob_payload b), s).
Proof.
  intros Hp Hr Hk Hb Hmax. unfold latest_prefix in *.
  set (P := "givebutter-data/" +:+ integration_id +:+ "/" +:+ data_type +:+ "/") in *.
  assert (HL : forall k, In k (filter (fun k => String.prefix P k = true)
                                 (map fst (map_to_list (objects s)))) <->
                         String.prefix P k = true /\ is_Some (objects s !! k))
    by (intros; apply list_blobs_elem).
  unfold get_latest_data_from_gcs, list_blobs, download_json, check_read.
  unfold_monad. cbv beta iota zeta. rewrite Hp. simpl. rewrite Hr. fold P.
  set (bl := filter (fun k => String.prefix P k = true) (map fst (map_to_list (objects s))))
    in *.
  clearbody bl. destruct bl as [|b0 bs].
  - exfalso. apply (proj2 (HL k)). split; [exact Hk|eauto].
  - destruct (max_name_spec b0 bs) as [Hin Hle].
    destruct (proj1 (HL _) Hin) as [Hmk Hms].
    assert (max_name b0 bs = k) as ->.
    { apply String.leb_antisym.
      - apply Hmax; assumption.
      - apply Hle, HL. split; [exact Hk|eauto]. }
    rewrite Hr. simpl. rewrite Hb. destruct b; reflexivity.
Qed.

Lemma prefix_app_cancel (a b c : string) :
  String.prefix (a +:+ b) (a +:+ c) = String.prefix b c.
Proof.
  induction a as [|x a IH]; [reflexivity|].
  simpl. destruct (ascii_dec x x) as [_|n]; [exact IH|congruence].
Qed.

Lemma blob_name_prefix (iid dt : string) (t : timestamp) :
  String.prefix (latest_prefix iid dt) (blob_name iid dt t) = true.
Proof.
  unfold latest_prefix, blob_name. rewrite !prefix_app_cancel.
  apply prefix_app_self.
Qed.

Lemma store_all_app (ws1 ws2 : list (string * json * timestamp)) e s :
  store_all (ws1 ++ ws2)%list e s = store_all ws2 e (store_all ws1 e s).
Proof.
  revert s. induction ws1 as [|[[dt d] t] ws1 IH]; intros s; [reflexivity|]. apply IH.
Qed.

Lemma str_leb_compare (a b : string) :
  String.compare a b <> Gt -> String.leb a b = true.
Proof. unfold String.leb. destruct (String.compare a b); congruence. Qed.

Lemma series_keys_bounded (dt : string) (ws : list (json * timestamp)) (t : timestamp) e s :
  (forall k, write_fault e k = None) -> valid_ts t ->
  Forall (fun w => valid_ts w.2 /\ ts_compare w.2 t <> Gt) ws ->
  (forall k, String.prefix (latest_prefix "givebutter" dt) k = true ->
     is_Some (objects s !! k) -> String.compare k (blob_name "givebutter" dt t) <> Gt) ->
  forall k, String.prefix (latest_prefix "givebutter" dt) k = true ->
     is_Some (objects (store_all (series dt ws) e s) !! k) ->
     String.compare k (blob_name "givebutter" dt t) <> Gt.
Proof.
  intros Hw Ht Hws. revert s. induction ws as [|[d ti] ws IH]; intros s Hs; [exact Hs|].
  apply Forall_cons in Hws as [[Hti Hle] Hws]. simpl in Hti, Hle.
  simpl. apply IH; [exact Hws|].
  intros k Hk Hsome. rewrite store_spec in Hsome. simpl in Hsome. rewrite Hw in Hsome.
  simpl in Hsome.
  destruct (String.eqb_spec k (blob_name "givebutter" dt ti)) as [->|n].
  - rewrite blob_name_compare by assumption. exact Hle.
  - rewrite lookup_insert_ne in Hsome by congruence. apply Hs; assumption.
Qed.

(** X2: The newest of a series of snapshot writes is what is read back. *)
Theorem latest_returns_newest_write (dt : string) (e : env) (s : state)
    (ws : list (json * timestamp)) (p : json) (t : timestamp) :
  production_path (STORAGE_BUCKET e) dt = false -> read_fault e = None ->
  (forall k, write_fault e k = None) ->
  valid_ts t ->
  Forall (fun w => valid_ts w.2 /\ ts_compare w.2 t <> Gt) ws ->
  (forall k, String.prefix (latest_prefix "givebutter" dt) k = true ->
     is_Some (objects s !! k) -> String.compare k (blob_name "givebutter" dt t) <> Gt) ->
  let s1 := store_all (series dt (ws ++ [(p, t)])) e s in
  get_latest_data_from_gcs dt "givebutter" e s1 = (Ok (Some p), s1).
Proof.
  intros Hp Hr Hw Ht Hws Hold s1.
  apply (latest_max_key_read dt "givebutter" e s1 (blob_name "givebutter" dt t) (BJson p));
    [exact Hp|exact Hr|apply blob_name_prefix| |].
  - subst s1. unfold series. rewrite map_app, store_all_app. simpl.
    rewrite store_spec. simpl. rewrite Hw. simpl. apply lookup_insert_eq.
  - intros k Hk Hsome. apply str_leb_compare.
    subst s1. unfold series in *. rewrite map_app, store_all_app in Hsome. simpl in Hsome.
    rewrite store_spec in Hsome. simpl in Hsome. rewrite Hw in Hsome. simpl in Hsome.
    destruct (String.eqb_spec k (blob_name "givebutter" dt t)) as [->|n].
    + rewrite str_compare_refl. discriminate.
    + rewrite lookup_insert_ne in Hsome by congruence.
      exact (series_keys_bounded dt ws t e s Hw Ht Hws Hold k Hk Hsome).
Qed.

Lemma page_range_S (p : Z) (n : nat) : page_range p (S n) = p :: page_range (p + 1) n.
Proof.
  unfold page_range. simpl. rewrite Z.add_0_r. f_equal.
  rewrite <- seq_shift, map_map. apply map_ext. intros i. lia.
Qed.

Lemma fetch_pages_run (g : Z -> res json) (d : Z -> list json) (N : Z) :
  (forall p, (1 <= p <= N)%Z -> exists r, g p = Ok r /\ page_ok r (d p) N) ->
  forall n p acc fuel, Z.of_nat n = (N - p + 1)%Z -> (1 <= p)%Z -> (n < fuel)%nat ->
  fetch_pages fuel g p (JInt N) acc =
    Some (Ok (acc ++ concat (map d (page_range p n)))%list, page_range p n).
Proof.
  intros Hg n. induction n as [|n IH]; intros p acc fuel Hn Hp Hf;
    destruct fuel as [|fuel]; try lia.
  - simpl. replace (p <=? N)%Z with false by lia. simpl. rewrite app_nil_r. reflexivity.
  - rewrite page_range_S. simpl. replace (p <=? N)%Z with true by lia.
    destruct (Hg p) as (r & Er & fs & -> & Ed & Em); [lia|]. rewrite Er.
    simpl. rewrite Ed. simpl.
    destruct (dict_lookup "meta" fs) as [meta|] eqn:EM; simpl in Em |- *;
      [rewrite Em | injection Em as EN; subst N];
      rewrite (IH (p + 1)%Z) by lia;
      cbn [map concat option_map fst snd]; rewrite app_assoc; reflexivity.
Qed.

Lemma fetch_pages_fail (g : Z -> res json) (d : Z -> list json) (N k : Z) (m : string) :
  (forall p, (1 <= p < k)%Z -> exists r, g p = Ok r /\ page_ok r (d p) N) ->
  (k <= N)%Z -> g k = Exc m ->
  forall n p acc fuel, Z.of_nat n = (k - p)%Z -> (1 <= p)%Z -> (n < fuel)%nat ->
  fetch_pages fuel g p (JInt N) acc = Some (Exc m, page_range p (S n)).
Proof.
  intros Hg HkN Hk n. induction n as [|n IH]; intros p acc fuel Hn Hp Hf;
    destruct fuel as [|fuel]; try lia.
  - assert (p = k) by lia. subst p. simpl. replace (k <=? N)%Z with true by lia.
    rewrite Hk. unfold page_range. simpl. rewrite Z.add_0_r. reflexivity.
  - rewrite page_range_S. simpl. replace (p <=? N)%Z with true by lia.
    destruct (Hg p) as (r & Er & fs & -> & Ed & Em); [lia|]. rewrite Er.
    simpl. rewrite Ed. simpl.
    destruct (dict_lookup "meta" fs) as [meta|] eqn:EM; simpl in Em |- *;
      [rewrite Em | injection Em as EN; subst N];
      rewrite (IH (p + 1)%Z) by lia; reflexivity.
Qed.

Lemma page_loop_first (fuel : nat) (g : Z -> res json) (N : Z) :
  (1 <= N)%Z -> page_loop fuel g = fetch_pages fuel g 1 (JInt N) [].
Proof.
  intros HN. unfold page_loop. destruct fuel as [|fuel]; [reflexivity|].
  simpl. replace (1 <=? N)%Z with true by lia. reflexivity.
Qed.

(** X3: The page loop of [poll_givebutter_api] against a server that answers
    every page [1..N] with [last_page = N]: it requests exactly the pages
    [1, 2, ..., N], in this order, and returns their items concatenated in
    page order. *)
Theorem page_loop_collects_all_pages (g : Z -> res json) (d : Z -> list json) (N : Z)
    (fuel : nat) :
  (1 <= N)%Z ->
  (forall p, (1 <= p <= N)%Z -> exists r, g p = Ok r /\ page_ok r (d p) N) ->
  (Z.to_nat N < fuel)%nat ->
  page_loop fuel g =
    Some (Ok (concat (map d (page_range 1 (Z.to_nat N)))), page_range 1 (Z.to_nat N)).
Proof.
  intros HN Hg Hf. rewrite (page_loop_first _ _ N HN).
  rewrite (fetch_pages_run g d N Hg (Z.to_nat N) 1 [] fuel) by lia. reflexivity.
Qed.

(** X4: A failing request (HTTP error status, network or JSON error) on page
    [k] stops the loop there: pages [1..k] have been requested, none after,
    and the loop raises the request's error, which [poll_givebutter_api]
    then turns into its mock-data fallback. *)
Theorem page_loop_stops_at_failed_page (g : Z -> res json) (d : Z -> list json)
    (N k : Z) (m : string) (fuel : nat) :
  (1 <= k <= N)%Z ->
  (forall p, (1 <= p < k)%Z -> exists r, g p = Ok r /\ page_ok r (d p) N) ->
  g k = Exc m ->
  (Z.to_nat k < fuel)%nat ->
  page_loop fuel g = Some (Exc m, page_range 1 (Z.to_nat k)).
Proof.
  intros Hk Hg Hgk Hf. rewrite (page_loop_first _ _ N) by lia.
  replace (Z.to_nat k) with (S (Z.to_nat k - 1)) by lia.
  apply (fetch_pages_fail g d N k m Hg); first [exact Hgk | lia].
Qed.

(** X5: When the first page announces [last_page] of at most 1 (or no [meta]
    at all), the loop requests page 1 only and returns its items. *)
Theorem page_loop_single_page (g : Z -> res json) (r : json) (items : list json) (N : Z)
    (fuel : nat) :
  g 1%Z = Ok r -> page_ok r items N -> (N <= 1)%Z -> (2 <= fuel)%nat ->
  page_loop fuel g = Some (Ok items, [1%Z]).
Proof.
  intros Hg (fs & -> & Ed & Em) HN Hf.
  destruct fuel as [|[|fuel]]; try lia.
  unfold page_loop. simpl. rewrite Hg. simpl. rewrite Ed. simpl.
  destruct (dict_lookup "meta" fs) as [meta|] eqn:EM; simpl in Em |- *;
    [rewrite Em; simpl; replace (1 + 1 <=? N)%Z with false by lia
    | injection Em as EN; subst N; simpl]; reflexivity.
Qed.

Lemma group_transactions_spec (ts : list json) (acc m : gmap string (list json)) :
  group_transactions ts acc = Ok m ->
  forall k, default [] (m !! k) = (default [] (acc !! k) ++ List.filter (txn_for k) ts)%list.
Proof.
  revert acc. induction ts as [|t ts IH]; intros acc E k.
  - injection E as <-. simpl. rewrite app_nil_r. reflexivity.
  - destruct t as [| | | | | |fs]; try discriminate.
    cbn [group_transactions py_get] in E. cbn [List.filter txn_for].
    set (cid := default JNull (dict_lookup "contact_id" fs)).
    replace (match dict_lookup "contact_id" fs with Some v => v | None => JNull end) with cid in E
      by (unfold cid; destruct (dict_lookup "contact_id" fs); reflexivity).
    destruct (String.eqb (py_str cid) "") eqn:Ee; simpl in E |- *;
      [rewrite (IH _ E); reflexivity|].
    rewrite (IH _ E).
    destruct (String.eqb_spec (py_str cid) k) as [<-|n].
    + rewrite lookup_insert_eq. simpl. rewrite <- app_assoc. reflexivity.
    + rewrite lookup_insert_ne by congruence. reflexivity.
Qed.

Lemma enrich_contact_stats (ps ts : list json) (plans_by txns_by : gmap string (list json))
    (c r : json) :
  group_active_plans ps ∅ = Ok plans_by ->
  group_transactions ts ∅ = Ok txns_by ->
  enrich_contact plans_by txns_by c = Ok r ->
  donor_record_ok ts ps c r.
Proof.
  intros G T E. unfold donor_record_ok. cbv zeta.
  pose proof (group_active_plans_spec ps ∅ plans_by G) as Hg.
  pose proof (group_transactions_spec ts ∅ txns_by T) as Ht.
  unfold enrich_contact in E.
  destruct c as [| | | | | |cfs]; try discriminate.
  cbn [py_get] in E. cbn [contact_key].
  set (idv := default JNull (dict_lookup "id" cfs)) in *.
  replace (match dict_lookup "id" cfs with Some v => v | None => JNull end) with idv in E
    by (unfold idv; destruct (dict_lookup "id" cfs); reflexivity).
  rewrite (Hg (py_str idv)), (Ht (py_str idv)) in E. rewrite lookup_empty in E.
  simpl app in E.
  destruct (sum_field "amount" (List.filter (txn_for (py_str idv)) ts)) as [tot|m];
    [|discriminate].
  destruct (sum_field "amount" (List.filter (active_for (py_str idv)) ps)) as [rec|m];
    [|discriminate].
  repeat match type of E with
  | context [match ?x with Ok _ => _ | Exc _ => _ end] => destruct x; [|discriminate]
  end.
  injection E as <-. exists tot, rec. repeat split.
Qed.

(** [get_donor_data] for a non-zero [limit]: the store is only read, and
    the answer is the page [enriched[offset:offset + limit]]. *)
Lemma get_donor_data_nonzero (limit offset : Z) (e : env) (s : state) :
  limit <> 0%Z ->
  let cd := latest_snapshot "contacts" e s in
  let td := latest_snapshot "transactions" e s in
  let pd := latest_snapshot "plans" e s in
  let now := isoformat (clock e) in
  let page := (offset / limit + 1)%Z in
  get_donor_data limit offset e s =
    (if negb (py_truthy (opt_json cd)) then Ok (donor_page [] 0 page limit false now)
     else match enrich_all (opt_json cd) (opt_json td) (opt_json pd) with
          | Ok enriched =>
              let total := Z.of_nat (length enriched) in
              Ok (donor_page (py_slice enriched offset (offset + limit))
                    total page limit (offset + limit <? total)%Z now)
          | Exc m => Exc ("500: " +:+ m)
          end, s).
Proof.
  intros Hl. unfold get_donor_data, lift. unfold_monad.
  rewrite !get_latest_spec. unfold py_floordiv.
  rewrite (proj2 (Z.eqb_neq limit 0)) by exact Hl.
  destruct (negb _); [reflexivity|].
  destruct (enrich_all _ _ _); reflexivity.
Qed.

Lemma firstn_add {A} (a b : nat) (l : list A) :
  firstn (a + b) l = (firstn a l ++ firstn b (skipn a l))%list.
Proof.
  revert l. induction a as [|a IH]; intros [|x l]; simpl; auto.
  - rewrite firstn_nil. reflexivity.
  - f_equal. apply IH.
Qed.

Lemma concat_pages {A} (L m : nat) (l : list A) :
  concat (map (fun i => firstn L (skipn (i * L) l)) (seq 0 m)) = firstn (m * L) l.
Proof.
  revert l. induction m as [|m IH]; intros l; [reflexivity|].
  cbn [seq map concat]. rewrite <- seq_shift, map_map. simpl (0 * L).
  rewrite skipn_O.
  erewrite map_ext by (intros i; rewrite Nat.mul_succ_l, <- skipn_skipn;
                       reflexivity).
  rewrite IH. simpl (S m * L). rewrite firstn_add. reflexivity.
Qed.

Lemma page_items_donor_page (data : list json) (total page limit : Z) (has_more : bool)
    (now : string) :
  page_items (Ok (donor_page data total page limit has_more now)) = data.
Proof. reflexivity. Qed.

(** X6: [get_donor_data] enriches every contact of the latest [contacts]
    snapshot, in order, and each donor's [id] is [str(contact.get('id'))];
    its [stats] count exactly the transactions whose [str(contact_id)] is
    non-empty and equal to that id, and the active plans filed under it,
    with [total_contributions] and [recurring_contributions] the sums of
    their [amount]s; [isRecurring] holds iff it has an active plan. *)
Theorem enriched_donor_stats (contacts_data transactions_data plans_data : json)
    (cs ts ps rs : list json) :
  py_get contacts_data "data" (JArr []) = Ok (JArr cs) ->
  (if py_truthy transactions_data then py_get transactions_data "data" (JArr [])
   else Ok (JArr [])) = Ok (JArr ts) ->
  (if py_truthy plans_data then py_get plans_data "data" (JArr []) else Ok (JArr []))
    = Ok (JArr ps) ->
  enrich_all contacts_data transactions_data plans_data = Ok rs ->
  Forall2 (donor_record_ok ts ps) cs rs.
Proof.
  intros Hc Ht Hp E. unfold enrich_all in E. rewrite Hc, Ht, Hp in E.
  cbn [py_iter] in E.
  destruct (group_active_plans ps ∅) as [plans_by|m] eqn:G; [|discriminate].
  destruct (group_transactions ts ∅) as [txns_by|m] eqn:T; [|discriminate].
  apply map_res_forall2 in E.
  eapply Forall2_impl; [exact E|].
  intros c r Hr. exact (enrich_contact_stats ps ts plans_by txns_by c r G T Hr).
Qed.

(** X7: Walking [get_donor_data] with a positive [limit] and offsets [0, limit,
    2 * limit, ...] returns every enriched donor exactly once, in order:
    the concatenated pages are the whole enriched list as soon as the pages
    span it. *)
Theorem donor_pages_cover_enriched (limit : Z) (m : nat) (e : env) (s : state)
    (enriched : list json) :
  (0 < limit)%Z ->
  py_truthy (opt_json (latest_snapshot "contacts" e s)) = true ->
  enrich_all (opt_json (latest_snapshot "contacts" e s))
    (opt_json (latest_snapshot "transactions" e s))
    (opt_json (latest_snapshot "plans" e s)) = Ok enriched ->
  (length enriched <= m * Z.to_nat limit)%nat ->
  concat (map (fun i => page_items (fst (get_donor_data limit (Z.of_nat i * limit) e s)))
              (seq 0 m)) = enriched.
Proof.
  intros Hl Hc E Hm.
  erewrite map_ext.
  2:{ intros i. rewrite get_donor_data_nonzero by lia. cbv zeta.
      rewrite Hc, E. simpl fst. rewrite page_items_donor_page.
      rewrite py_slice_nonneg by lia.
      replace (Z.to_nat (Z.of_nat i * limit)) with (i * Z.to_nat limit)%nat by lia.
      reflexivity. }
  rewrite concat_pages. apply firstn_all2. exact Hm.
Qed.

(** X8: With a negative [limit] [-j] and [offset = 0], [get_donor_data]
    answers page 1 holding all enriched donors but the last [j], and
    [has_more] is always true. *)
Theorem donor_data_negative_limit (j : Z) (e : env) (s : state) (enriched : list json) :
  (0 < j)%Z ->
  py_truthy (opt_json (latest_snapshot "contacts" e s)) = true ->
  enrich_all (opt_json (latest_snapshot "contacts" e s))
    (opt_json (latest_snapshot "transactions" e s))
    (opt_json (latest_snapshot "plans" e s)) = Ok enriched ->
  get_donor_data (- j) 0 e s =
    (Ok (donor_page (firstn (length enriched - Z.to_nat j) enriched)
           (Z.of_nat (length enriched)) 1 (- j) true (isoformat (clock e))), s).
Proof.
  intros Hj Hc E. rewrite get_donor_data_nonzero by lia. cbv zeta.
  rewrite Hc, E. simpl negb. cbv iota.
  replace (0 / - j + 1)%Z with 1%Z by (rewrite Z.div_0_l by lia; reflexivity).
  replace (0 + - j <? Z.of_nat (length enriched))%Z with true
    by (symmetry; apply Z.ltb_lt; lia).
  unfold py_slice, slice_bound.
  rewrite (proj2 (Z.ltb_ge 0 0)) by lia.
  rewrite (proj2 (Z.ltb_lt (0 + - j) 0)) by lia.
  rewrite Z.min_l by lia. simpl skipn.
  replace (Z.to_nat (Z.max 0 (0 + - j + Z.of_nat (length enriched)) - 0))
    with (length enriched - Z.to_nat j)%nat by lia.
  reflexivity.
Qed.

(** X9: [get_donor_data] never changes the state: whatever [limit], [offset]
    and store, it writes no snapshot, records no error and leaves
    [sync_status] as it is. *)
Theorem get_donor_data_read_only (limit offset : Z) (e : env) (s : state) :
  snd (get_donor_data limit offset e s) = s.
Proof.
  destruct (Z.eq_dec limit 0%Z) as [->|Hl].
  - unfold get_donor_data, lift. unfold_monad. rewrite !get_latest_spec.
    unfold py_floordiv. simpl.
    destruct (negb _); [reflexivity|].
    destruct (enrich_all _ _ _); reflexivity.
  - rewrite get_donor_data_nonzero by exact Hl. reflexivity.
Qed.

Lemma generate_spec (e : env) (s : state) :
  generate_donor_summary e s =
  match summary_core (latest_snapshot "contacts" e s) (latest_snapshot "transactions" e s)
          (latest_snapshot "plans" e s) with
  | Exc msg =>
      (Ok tt, mkState (sync_status s) (sync_errors s ++ ["Summary Generation Error: " +:+ msg])
                (last_sync_time s) (objects s) (trace s))
  | Ok st =>
      let name := blob_name "givebutter" "summary" (clock e) in
      match write_fault e name with
      | Some msg =>
          (Ok tt, mkState (sync_status s) (sync_errors s ++ ["Summary Generation Error: " +:+ msg])
                    (last_sync_time s) (objects s) (trace s ++ [EPut name]))
      | None =>
          (Ok tt, mkState (sync_status s) (sync_errors s) (last_sync_time s)
                    (<[name := BJson (build_summary st (isoformat (clock e)) (sync_status s)
                                        (sync_errors s))]> (objects s))
                    (trace s ++ [EPut name]))
      end
  end.
Proof.
  unfold generate_donor_summary. unfold catch at 1. unfold bind at 1.
  rewrite get_latest_spec. unfold bind at 1. rewrite get_latest_spec.
  unfold bind at 1. rewrite get_latest_spec. unfold bind at 1. rewrite get_latest_spec.
  destruct (summary_core _ _ _) as [st|msg]; [|reflexivity].
  unfold lift, bind, ret, get_env, get_state. rewrite store_spec. simpl.
  destruct (write_fault e _); reflexivity.
Qed.

Lemma production_summary_absent (e : env) (s : state) :
  STORAGE_BUCKET e = "wlmn-donor-data" -> objects s !! production_summary_name = None ->
  get_latest_data_from_gcs "summary" "givebutter" e s = (Ok None, s).
Proof.
  intros Hb Ho. unfold get_latest_data_from_gcs, blob_exists, check_read.
  unfold_monad. cbv beta iota zeta. rewrite Hb. simpl.
  destruct (read_fault e); [reflexivity|].
  replace ("donor-sync/production/" +:+ "summary" +:+ "_data.json")
    with production_summary_name by reflexivity.
  rewrite Ho. reflexivity.
Qed.

Lemma blob_name_not_production (dt : string) (t : timestamp) :
  blob_name "givebutter" dt t <> production_summary_name.
Proof. unfold blob_name, production_summary_name. simpl. discriminate. Qed.

(** X10: With the production bucket and no production summary file,
    [get_donor_summary] answers the all-zero summary carrying the current
    [sync_status] on every call, even though each call runs
    [generate_donor_summary]: that writes (when the statistics compute and
    the write succeeds) a fresh summary snapshot under the per-second key,
    which the production read path never looks at, and touches no other
    object. *)
Theorem summary_production_default (e : env) (s : state) :
  STORAGE_BUCKET e = "wlmn-donor-data" -> objects s !! production_summary_name = None ->
  let r := get_donor_summary e s in
  let now := isoformat (clock e) in
  let key := blob_name "givebutter" "summary" (clock e) in
  fst r = Ok (summary_response (default_summary now (sync_status s)) now) /\
  (forall k, k <> key -> objects (snd r) !! k = objects s !! k) /\
  (forall st, summary_core (latest_snapshot "contacts" e s) (latest_snapshot "transactions" e s)
                (latest_snapshot "plans" e s) = Ok st ->
   write_fault e key = None ->
   objects (snd r) !! key = Some (BJson (build_summary st now (sync_status s) (sync_errors s)))).
Proof.
  intros Hb Ho r now key.
  assert (E : forall s', objects s' !! production_summary_name = None ->
                         sync_status s' = sync_status s ->
                         get_donor_summary e s' =
                         (Ok (summary_response (default_summary now (sync_status s)) now),
                          snd (generate_donor_summary e s'))).
  { intros s' Ho' Hs'. unfold get_donor_summary. unfold catch at 1. unfold bind at 1.
    rewrite (production_summary_absent e s' Hb Ho'). simpl py_truthy. cbv iota.
    unfold mbind, M_bind, bind at 1. unfold bind at 1.
    destruct (summary_ok e s') as [s2 G]. rewrite G.
    assert (Ho2 : objects s2 !! production_summary_name = None).
    { rewrite generate_spec in G.
      destruct (summary_core _ _ _); cbv zeta in G; [destruct (write_fault e _)|];
        injection G as <-; simpl; try exact Ho'.
      rewrite lookup_insert_ne
        by (intro Heq; apply (blob_name_not_production "summary" (clock e)); congruence).
      exact Ho'. }
    assert (Hs2 : sync_status s2 = sync_status s).
    { rewrite <- Hs'. rewrite generate_spec in G.
      destruct (summary_core _ _ _); cbv zeta in G; [destruct (write_fault e _)|];
        injection G as <-; reflexivity. }
    rewrite (production_summary_absent e s2 Hb Ho2). simpl. rewrite Hs2. reflexivity. }
  unfold r. rewrite (E s Ho eq_refl). simpl fst. simpl snd. split; [reflexivity|].
  rewrite generate_spec. split.
  - intros k Hk. destruct (summary_core _ _ _); cbv zeta; [destruct (write_fault e _)|];
      simpl; try reflexivity.
    apply lookup_insert_ne. unfold key in Hk. congruence.
  - intros st Hst Hw. rewrite Hst. cbv zeta. unfold key in Hw. rewrite Hw. simpl.
    apply lookup_insert_eq.
Qed.

Lemma latest_empty_prefix (data_type : string) (e : env) (s : state) :
  production_path (STORAGE_BUCKET e) data_type = false -> read_fault e = None ->
  (forall k, String.prefix (latest_prefix "givebutter" data_type) k = true ->
     objects s !! k = None) ->
  get_latest_data_from_gcs data_type "givebutter" e s = (Ok None, s).
Proof.
  intros Hp Hr Hnone. unfold latest_prefix in *.
  set (P := "givebutter-data/" +:+ "givebutter" +:+ "/" +:+ data_type +:+ "/") in *.
  assert (HL : forall k, In k (filter (fun k => String.prefix P k = true)
                                 (map fst (map_to_list (objects s)))) <->
                         String.prefix P k = true /\ is_Some (objects s !! k))
    by (intros; apply list_blobs_elem).
  unfold get_latest_data_from_gcs, list_blobs, check_read.
  unfold_monad. cbv beta iota zeta. rewrite Hp. simpl. rewrite Hr. fold P.
  set (bl := filter (fun k => String.prefix P k = true) (map fst (map_to_list (objects s))))
    in *.
  clearbody bl. destruct bl as [|b0 bs]; [reflexivity|].
  exfalso. destruct (proj1 (HL b0) (or_introl eq_refl)) as [Hpre [x Hx]].
  rewrite (Hnone b0 Hpre) in Hx. discriminate.
Qed.

(** X11: Off the production path, with no summary snapshot stored yet, a call
    to [get_donor_summary] generates the summary from the latest snapshots,
    stores it under the per-second key and answers that freshly built
    summary (with the [sync_status] and [sync_errors] of the moment). *)
Theorem summary_generated_on_first_read (e : env) (s : state) (st : summary_stats) :
  production_path (STORAGE_BUCKET e) "summary" = false -> read_fault e = None ->
  (forall k, String.prefix (latest_prefix "givebutter" "summary") k = true ->
     objects s !! k = None) ->
  summary_core (latest_snapshot "contacts" e s) (latest_snapshot "transactions" e s)
    (latest_snapshot "plans" e s) = Ok st ->
  write_fault e (blob_name "givebutter" "summary" (clock e)) = None ->
  let now := isoformat (clock e) in
  let built := build_summary st now (sync_status s) (sync_errors s) in
  fst (get_donor_summary e s) = Ok (summary_response built now) /\
  objects (snd (get_donor_summary e s)) =
    <[blob_name "givebutter" "summary" (clock e) := BJson built]> (objects s).
Proof.
  intros Hp Hr Hnone Hst Hw now built.
  set (key := blob_name "givebutter" "summary" (clock e)).
  set (s2 := mkState (sync_status s) (sync_errors s) (last_sync_time s)
               (<[key := BJson built]> (objects s)) (trace s ++ [EPut key])).
  assert (G : generate_donor_summary e s = (Ok tt, s2)).
  { rewrite generate_spec, Hst. cbv zeta. rewrite Hw. reflexivity. }
  assert (R : get_latest_data_from_gcs "summary" "givebutter" e s2 = (Ok (Some built), s2)).
  { apply (latest_max_key_read "summary" "givebutter" e s2 key (BJson built));
      [exact Hp|exact Hr|apply blob_name_prefix|apply lookup_insert_eq|].
    intros k' Hk' [x Hx]. simpl in Hx.
    destruct (String.eqb_spec k' key) as [->|n]; [apply str_leb_refl|].
    rewrite lookup_insert_ne in Hx by congruence.
    rewrite (Hnone k' Hk') in Hx. discriminate. }
  assert (Hg : get_donor_summary e s = (Ok (summary_response built now), s2)).
  { unfold get_donor_summary. unfold catch at 1. unfold bind at 1.
    rewrite (latest_empty_prefix "summary" e s Hp Hr Hnone). simpl py_truthy. cbv iota.
    unfold mbind, M_bind, bind at 1. unfold bind at 1. rewrite G, R. reflexivity. }
  rewrite Hg. split; reflexivity.
Qed.

(** X12: [get_donor_summary] never takes its [HTTPException(500)] branch: the
    reads of [get_latest_data_from_gcs] and [generate_donor_summary] catch
    every exception, so each call answers a summary response. *)
Theorem get_donor_summary_never_fails (e : env) (s : state) :
  exists data, fst (get_donor_summary e s) =
               Ok (summary_response data (isoformat (clock e))).
Proof.
  unfold get_donor_summary. unfold catch at 1. unfold bind at 1.
  destruct (get_latest_total "summary" "givebutter" e s) as [Hs [r Hr]].
  destruct (get_latest_data_from_gcs "summary" "givebutter" e s) as [x s1].
  simpl in Hs, Hr. subst x s1.
  destruct (py_truthy (opt_json r)).
  - eexists. reflexivity.
  - unfold mbind, M_bind, bind at 1. unfold bind at 1.
    destruct (summary_ok e s) as [s2 G]. rewrite G.
    destruct (get_latest_total "summary" "givebutter" e s2) as [Hs2 [r2 Hr2]].
    destruct (get_latest_data_from_gcs "summary" "givebutter" e s2) as [x s3].
    simpl in Hs2, Hr2. subst x s3. eexists. reflexivity.
Qed.

Lemma split_once_bearer (tok : string) : split_once ("Bearer " +:+ tok) = ["Bearer"; tok].
Proof. reflexivity. Qed.

(** X13: With [ENVIRONMENT = 'development'] every request is let through as the
    fixed development user, whatever its [Authorization] header and
    whatever the token verifier would say. *)
Theorem auth_development_bypass (cfg : auth_config) (auth_header : option string) :
  ENVIRONMENT cfg = "development" ->
  get_authenticated_user cfg auth_header = Ok dev_claims.
Proof.
  intros H. unfold get_authenticated_user, verify_google_identity_token. rewrite H.
  reflexivity.
Qed.

(** X14: Outside development, a request without an [Authorization] header, or
    whose header does not start with ["Bearer "] (case-sensitive), is
    refused with 401 ["Missing or invalid Authorization header"] before any
    token is verified. *)
Theorem auth_rejects_non_bearer (cfg : auth_config) (auth_header : option string) :
  ENVIRONMENT cfg <> "development" ->
  (auth_header = None \/
   exists h, auth_header = Some h /\ String.prefix "Bearer " h = false) ->
  get_authenticated_user cfg auth_header = Exc "401: Missing or invalid Authorization header".
Proof.
  intros Hdev Hh. unfold get_authenticated_user, verify_google_identity_token.
  rewrite (proj2 (String.eqb_neq _ _) Hdev).
  destruct Hh as [-> | (h & -> & Hp)]; [reflexivity|].
  rewrite Hp, orb_true_r. reflexivity.
Qed.

(** X15: Outside development, a header ["Bearer " ++ tok] hands exactly [tok]
    (spaces included) to the verifier: the request is accepted with the
    verified claims when they form a dict, and refused with 401 ["Invalid
    token: " ++ m] when verification fails with [m]. *)
Theorem auth_bearer_token_verified (cfg : auth_config) (tok : string) :
  ENVIRONMENT cfg <> "development" ->
  (forall fs, verify_oauth2_token cfg tok = Ok (JObj fs) ->
     get_authenticated_user cfg (Some ("Bearer " +:+ tok)) = Ok (JObj fs)) /\
  (forall m, verify_oauth2_token cfg tok = Exc m ->
     get_authenticated_user cfg (Some ("Bearer " +:+ tok)) = Exc ("401: Invalid token: " +:+ m)).
Proof.
  intros Hdev. unfold get_authenticated_user, verify_google_identity_token.
  rewrite (proj2 (String.eqb_neq _ _) Hdev).
  replace (String.eqb ("Bearer " +:+ tok) "") with false by reflexivity.
  replace (String.prefix "Bearer " ("Bearer " +:+ tok)) with true
    by (symmetry; apply prefix_app_self).
  simpl orb. cbv iota. rewrite split_once_bearer. simpl nth_error.
  split; intros x Hv; rewrite Hv; reflexivity.
Qed.

Lemma sync_collections_stores (dts : list string) (e : env) (s : state) :
  (forall k, write_fault e k = None) ->
  exists s1, sync_collections dts e s = (Ok tt, s1) /\
    sync_status s1 = sync_status s /\
    forall k, (is_Some (objects s !! k) \/
               exists dt, In dt dts /\ k = blob_name "givebutter" dt (clock e)) ->
              is_Some (objects s1 !! k).
Proof.
  intros Hw. revert s. induction dts as [|d dts IH]; intros s.
  - exists s. split; [reflexivity|]. split; [reflexivity|].
    intros k [H|(dt & [] & _)]. exact H.
  - simpl. unfold mbind, M_bind, bind.
    destruct (poll_spec d e s) as (data & errs & ->).
    rewrite store_spec. simpl. rewrite Hw.
    match goal with |- context [sync_collections dts e ?st] =>
      destruct (IH st) as (s1 & E & Hst & Hk) end.
    rewrite E. exists s1. split; [reflexivity|]. split; [exact Hst|].
    intros k Hin. apply Hk. simpl.
    destruct (String.eqb_spec k (blob_name "givebutter" d (clock e))) as [->|n].
    + left. rewrite lookup_insert_eq. eauto.
    + rewrite lookup_insert_ne by congruence.
      destruct Hin as [H|(dt & [<-|Hdt] & ->)]; [left; exact H|congruence|].
      right. eauto.
Qed.

Lemma generate_keeps_objects (e : env) (s : state) (k : string) :
  is_Some (objects s !! k) -> is_Some (objects (snd (generate_donor_summary e s)) !! k).
Proof.
  intros H. rewrite generate_spec.
  destruct (summary_core _ _ _); cbv zeta; [destruct (write_fault e _)|]; simpl; try exact H.
  destruct (String.eqb_spec k (blob_name "givebutter" "summary" (clock e))) as [->|n].
  - rewrite lookup_insert_eq. eauto.
  - rewrite lookup_insert_ne by congruence. exact H.
Qed.

(** X16: A sync cycle started while no other is running, with every storage
    write succeeding, returns normally with [sync_status = "completed"] and
    [last_sync_time] the cycle's clock; it has stored a snapshot of each of
    [contacts], [transactions], [plans] and [campaigns] under the cycle's
    key, and it has deleted no object that was there before. *)
Theorem sync_cycle_success (e : env) (s : state) :
  (forall k, write_fault e k = None) ->
  sync_status s <> "syncing" ->
  exists s1, sync_all_data e s = (Ok tt, s1) /\
    sync_status s1 = "completed" /\
    last_sync_time s1 = Some (clock e) /\
    (forall dt, In dt data_types -> is_Some (objects s1 !! blob_name "givebutter" dt (clock e))) /\
    (forall k, is_Some (objects s !! k) -> is_Some (objects s1 !! k)).
Proof.
  intros Hw Hs. unfold sync_all_data. unfold bind at 1. rewrite sync_entry_spec.
  rewrite (proj2 (String.eqb_neq _ _) Hs).
  set (s0 := mkState "syncing" [] (last_sync_time s) (objects s) (trace s)).
  destruct (sync_collections_stores data_types e s0 Hw) as (s1 & E1 & Hst1 & Hk1).
  destruct (summary_ok e s1) as [s2 G].
  pose proof (generate_keeps_objects e s1) as Hk2. rewrite G in Hk2. simpl in Hk2.
  unfold sync_body, catch. unfold mbind, M_bind, bind at 1. rewrite E1.
  unfold bind at 1. rewrite G.
  unfold bind, get_env, set_last_sync, set_status, modify. simpl.
  eexists. split; [reflexivity|]. simpl. split; [reflexivity|]. split; [reflexivity|].
  split.
  - intros dt Hdt. apply Hk2, Hk1. right. exists dt. split; [exact Hdt|reflexivity].
  - intros k Hk. apply Hk2, Hk1. left. exact Hk.
Qed.

Lemma mock_summary_core (t : timestamp) :
  summary_core (Some (generate_mock_data t "contacts")) (Some (generate_mock_data t "transactions"))
    (Some (generate_mock_data t "plans")) = Ok mock_stats.
Proof. rewrite mock_contacts_eq, mock_transactions_eq, mock_plans_eq. vm_compute. reflexivity. Qed.

Lemma poll_no_key (dt : string) (e : env) (s : state) :
  GIVEBUTTER_API_KEY e = None ->
  poll_givebutter_api dt e s =
    (Ok (generate_mock_data (clock e) dt),
     mkState (sync_status s) (sync_errors s) (last_sync_time s) (objects s)
       (trace s ++ [EFetch dt])).
Proof.
  intros Hk. unfold poll_givebutter_api, log_effect. unfold_monad. simpl. rewrite Hk.
  reflexivity.
Qed.

Lemma sync_collections_no_key (dts : list string) (e : env) (s : state) :
  GIVEBUTTER_API_KEY e = None -> (forall k, write_fault e k = None) ->
  NoDup (map (fun dt => blob_name "givebutter" dt (clock e)) dts) ->
  exists s1, sync_collections dts e s = (Ok tt, s1) /\
    sync_status s1 = sync_status s /\ sync_errors s1 = sync_errors s /\
    last_sync_time s1 = last_sync_time s /\
    (forall dt, In dt dts ->
       objects s1 !! blob_name "givebutter" dt (clock e) =
         Some (BJson (generate_mock_data (clock e) dt))) /\
    (forall k, (forall dt, In dt dts -> k <> blob_name "givebutter" dt (clock e)) ->
       objects s1 !! k = objects s !! k).
Proof.
  intros Hk Hw. revert s. induction dts as [|d dts IH]; intros s Hnd.
  - exists s. split; [reflexivity|]. split; [reflexivity|]. split; [reflexivity|].
    split; [reflexivity|]. split; [intros dt []|]. intros k _. reflexivity.
  - inversion Hnd as [|x xs Hnin Hnd' Ex]. subst.
    simpl. unfold mbind, M_bind, bind.
    rewrite (poll_no_key d e s Hk). rewrite store_spec. simpl. rewrite Hw.
    match goal with |- context [sync_collections dts e ?st] =>
      destruct (IH st Hnd') as (s1 & E & Hst & Her & Hls & Hin & Hout) end.
    rewrite E. exists s1. split; [reflexivity|]. split; [exact Hst|].
    split; [exact Her|]. split; [exact Hls|]. split.
    + intros dt [<-|Hdt]; [|exact (Hin dt Hdt)].
      rewrite Hout; [simpl; apply lookup_insert_eq|].
      intros dt' Hdt' Heq. apply Hnin. rewrite Heq. apply list_elem_of_In.
      exact (in_map (fun dt => blob_name "givebutter" dt (clock e)) _ _ Hdt').
    + intros k Hnot. rewrite Hout by (intros dt Hdt; apply Hnot; right; exact Hdt).
      simpl. apply lookup_insert_ne. intros Heq. apply (Hnot d); [left; reflexivity|].
      symmetry. exact Heq.
Qed.

Lemma latest_single_key (data_type : string) (e : env) (s : state) (k : string) (b : blob) :
  production_path (STORAGE_BUCKET e) data_type = false -> read_fault e = None ->
  String.prefix (latest_prefix "givebutter" data_type) k = true ->
  objects s !! k = Some b ->
  (forall k', String.prefix (latest_prefix "givebutter" data_type) k' = true ->
     is_Some (objects s !! k') -> k' = k) ->
  get_latest_data_from_gcs data_type "givebutter" e s = (Ok (blob_payload b), s).
Proof.
  intros Hp Hr Hk Hb Huniq.
  apply (latest_max_key_read data_type "givebutter" e s k b Hp Hr Hk Hb).
  intros k' Hk' Hs. rewrite (Huniq k' Hk' Hs). apply str_leb_refl.
Qed.

Lemma data_type_keys_nodup (t : timestamp) :
  NoDup (map (fun dt => blob_name "givebutter" dt t) data_types).
Proof.
  apply NoDup_ListNoDup. cbn [map data_types].
  repeat constructor; cbn [In]; intros H;
    repeat destruct H as [H|H]; try contradiction;
    unfold blob_name in H; simpl in H; discriminate H.
Qed.

(** [prefix (latest_prefix dt) (blob_name dt' t)] between the types the
    service writes holds only for [dt = dt']. *)
Lemma written_prefix_same (dt dt' : string) (t : timestamp) :
  In dt written_types -> In dt' written_types ->
  String.prefix (latest_prefix "givebutter" dt) (blob_name "givebutter" dt' t) = true ->
  dt = dt'.
Proof.
  intros Hd Hd'. unfold written_types in *. unfold latest_prefix, blob_name.
  destruct Hd as [<-|[<-|[<-|[<-|[<-|[]]]]]];
    destruct Hd' as [<-|[<-|[<-|[<-|[<-|[]]]]]]; simpl; congruence.
Qed.

(** X17: Without a Givebutter API key, on a bucket other than the production one
    that holds no earlier [contacts], [transactions], [plans] or [summary]
    snapshot, a completed sync cycle leaves the summary endpoint answering
    the mock figures: 168 donors, 186 transactions, 1,860,000 cents
    ($18,600) and 78 active recurring plans; the stored summary carries
    [sync_status = "syncing"] and no errors, as it is written while the
    cycle runs. *)
Theorem no_key_cycle_summary (e : env) (s : state) :
  GIVEBUTTER_API_KEY e = None -> STORAGE_BUCKET e <> "wlmn-donor-data" ->
  read_fault e = None -> (forall k, write_fault e k = None) ->
  sync_status s <> "syncing" ->
  (forall dt k, In dt read_types ->
     String.prefix (latest_prefix "givebutter" dt) k = true -> objects s !! k = None) ->
  let now := isoformat (clock e) in
  exists s1, sync_all_data e s = (Ok tt, s1) /\ sync_status s1 = "completed" /\
    fst (get_donor_summary e s1) =
      Ok (summary_response (build_summary mock_stats now "syncing" []) now).
Proof.
  intros Hkey Hb Hr Hw Hs Hempty now.
  assert (Hp : forall dt, production_path (STORAGE_BUCKET e) dt = false).
  { intros dt. unfold production_path. rewrite (proj2 (String.eqb_neq _ _) Hb).
    reflexivity. }
  unfold sync_all_data. unfold bind at 1. rewrite sync_entry_spec.
  rewrite (proj2 (String.eqb_neq _ _) Hs).
  set (s0 := mkState "syncing" [] (last_sync_time s) (objects s) (trace s)).
  destruct (sync_collections_no_key data_types e s0 Hkey Hw (data_type_keys_nodup (clock e)))
    as (s1 & E1 & Hst1 & Her1 & Hls1 & Hin1 & Hout1).
  (* Every object of [s1] under a read prefix is one this cycle wrote. *)
  assert (Hfresh : forall dt k, In dt read_types ->
            String.prefix (latest_prefix "givebutter" dt) k = true ->
            is_Some (objects s1 !! k) ->
            exists dt', In dt' data_types /\ k = blob_name "givebutter" dt' (clock e) /\ dt = dt').
  { intros dt k Hdt Hk Hsome.
    destruct (existsb (fun dt' => String.eqb k (blob_name "givebutter" dt' (clock e))) data_types)
      eqn:X.
    - apply existsb_exists in X as (dt' & Hdt' & Hq). apply String.eqb_eq in Hq. subst k.
      exists dt'. split; [exact Hdt'|]. split; [reflexivity|].
      apply (written_prefix_same dt dt' (clock e)); [|unfold written_types; simpl in *; tauto|exact Hk].
      unfold read_types, written_types in *. simpl in *. tauto.
    - exfalso. rewrite Hout1 in Hsome.
      + simpl in Hsome. rewrite (Hempty dt k Hdt Hk) in Hsome. destruct Hsome as [x Hx]. discriminate.
      + intros dt' Hdt' ->.
        assert (Hx : existsb (fun dt'' => String.eqb (blob_name "givebutter" dt' (clock e))
                                 (blob_name "givebutter" dt'' (clock e))) data_types = true)
          by (apply existsb_exists; exists dt'; split; [exact Hdt'|apply String.eqb_refl]).
        rewrite Hx in X. discriminate. }
  assert (Hread : forall dt, In dt ["contacts"; "transactions"; "plans"] ->
            latest_snapshot dt e s1 = Some (generate_mock_data (clock e) dt)).
  { intros dt Hdt. assert (Hdt' : In dt data_types) by (unfold data_types; simpl in *; tauto).
    unfold latest_snapshot.
    rewrite (latest_single_key dt e s1 (blob_name "givebutter" dt (clock e))
               (BJson (generate_mock_data (clock e) dt)) (Hp dt) Hr (blob_name_prefix _ _ _)
               (Hin1 dt Hdt')).
    - reflexivity.
    - intros k' Hk' Hs'.
      destruct (Hfresh dt k' ltac:(unfold read_types; simpl in *; tauto) Hk' Hs')
        as (dt' & _ & -> & <-). reflexivity. }
  destruct (summary_ok e s1) as [s2 G].
  pose proof G as G'. rewrite generate_spec in G'.
  rewrite (Hread "contacts"), (Hread "transactions"), (Hread "plans") in G' by (simpl; tauto).
  rewrite mock_summary_core in G'. cbv zeta in G'. rewrite Hw in G'.
  injection G' as <-.
  unfold sync_body, catch. unfold mbind, M_bind, bind at 1. rewrite E1.
  unfold bind at 1. rewrite G.
  unfold bind, get_env, set_last_sync, set_status, modify. simpl.
  eexists. split; [reflexivity|]. split; [reflexivity|].
  set (built := build_summary mock_stats (isoformat (clock e)) (sync_status s1) (sync_errors s1)).
  set (key := blob_name "givebutter" "summary" (clock e)).
  set (s3 := mkState "completed" (sync_errors s1) (Some (clock e)) (<[key := BJson built]> (objects s1))
               ((trace s1 ++ [EPut key]))).
  assert (R : get_latest_data_from_gcs "summary" "givebutter" e s3 = (Ok (Some built), s3)).
  { apply (latest_single_key "summary" e s3 key (BJson built) (Hp "summary") Hr
             (blob_name_prefix _ _ _) (lookup_insert_eq _ _ _)).
    intros k' Hk' Hs'. simpl in Hs'.
    destruct (String.eqb_spec k' key) as [->|n]; [reflexivity|].
    rewrite lookup_insert_ne in Hs' by congruence.
    destruct (Hfresh "summary" k' ltac:(unfold read_types; simpl; tauto) Hk' Hs')
      as (dt' & Hdt' & -> & <-).
    exfalso. unfold data_types in Hdt'. simpl in Hdt'. intuition discriminate. }
  unfold get_donor_summary. unfold catch at 1. unfold bind at 1.
  replace (mkState "completed" _ _ _ _) with s3 by reflexivity.
  rewrite R. simpl py_truthy. cbv iota. unfold mret, M_ret, ret, bind, get_env, get_state.
  simpl. unfold built. rewrite Hst1, Her1. reflexivity.
Qed.

Lemma production_read (dt iid : string) (e : env) (s : state) (data : json) :
  STORAGE_BUCKET e = "wlmn-donor-data" -> In dt production_types -> read_fault e = None ->
  objects s !! ("donor-sync/production/" +:+ dt +:+ "_data.json") = Some (BJson data) ->
  get_latest_data_from_gcs dt iid e s =
    (match production_transform dt data with Ok r => Ok r | Exc _ => Ok None end, s).
Proof.
  intros Hb Hdt Hr Ho.
  assert (Hp : production_path (STORAGE_BUCKET e) dt = true).
  { unfold production_path. rewrite Hb. simpl. apply bool_decide_eq_true.
    apply list_elem_of_In. exact Hdt. }
  unfold get_latest_data_from_gcs, blob_exists, download_json, check_read, lift.
  unfold_monad. cbv beta iota zeta. rewrite Hp. simpl. rewrite Hr. simpl.
  rewrite Ho. simpl. rewrite Hr. simpl. rewrite Ho.
  destruct (production_transform dt data); reflexivity.
Qed.

(** X18: With the production bucket and a readable production summary file
    whose [total_amount] is an integer number of dollars [z],
    [get_donor_summary] serves that file renamed to the service's summary
    shape: [total_donations] as [total_transactions], [recurring_donors] as
    [active_recurring_plans], [last_sync] as [last_updated], [z * 100] as the
    cents and [z] as the dollars, with the code's defaults for missing
    fields; nothing is generated or written. *)
Theorem production_summary_served (e : env) (s : state) (fs : list (string * json)) (z : Z) :
  STORAGE_BUCKET e = "wlmn-donor-data" -> read_fault e = None ->
  objects s !! production_summary_name = Some (BJson (JObj fs)) ->
  dict_lookup "total_amount" fs = Some (JInt z) ->
  get_donor_summary e s =
    (Ok (summary_response (production_summary fs z) (isoformat (clock e))), s).
Proof.
  intros Hb Hr Ho Hz.
  assert (R : get_latest_data_from_gcs "summary" "givebutter" e s =
              (Ok (Some (production_summary fs z)), s)).
  { rewrite (production_read "summary" "givebutter" e s (JObj fs) Hb) by
      (simpl; tauto || exact Hr || exact Ho).
    unfold production_transform. simpl. rewrite Hz. simpl.
    unfold production_summary.
    destruct (dict_lookup "total_donors" fs), (dict_lookup "total_donations" fs),
      (dict_lookup "recurring_donors" fs), (dict_lookup "last_sync" fs),
      (dict_lookup "sync_status" fs); reflexivity. }
  unfold get_donor_summary. unfold catch at 1. unfold bind at 1. rewrite R.
  reflexivity.
Qed.

(** X19: With the production bucket, a production [contacts] file
    [{"contacts": [...]}] is read as the envelope [{"data": [...]}] (a
    missing [contacts] field as an empty list), which is what
    [get_donor_data] and [generate_donor_summary] then consume. *)
Theorem production_contacts_wrapped (e : env) (s : state) (fs : list (string * json))
    (l : list json) :
  STORAGE_BUCKET e = "wlmn-donor-data" -> read_fault e = None ->
  objects s !! "donor-sync/production/contacts_data.json" = Some (BJson (JObj fs)) ->
  default (JArr []) (dict_lookup "contacts" fs) = JArr l ->
  latest_snapshot "contacts" e s = Some (JObj [("data", JArr l)]).
Proof.
  intros Hb Hr Ho Hl. unfold latest_snapshot.
  rewrite (production_read "contacts" "givebutter" e s (JObj fs) Hb) by
    (simpl; tauto || exact Hr || exact Ho).
  unfold production_transform. simpl.
  destruct (dict_lookup "contacts" fs); simpl in Hl; subst; simpl; [reflexivity|].
  injection Hl as <-. reflexivity.
Qed.

Ltac solve_valid_ts :=
  unfold valid_ts, sample_time, sample_earlier; cbn [ts_year ts_month ts_day ts_hour ts_minute ts_second];
  repeat split; first [lia | apply Nat.leb_le; vm_compute; reflexivity].

Lemma blob_name_compare_witness :
  valid_ts sample_earlier /\ valid_ts sample_time /\
  String.compare (blob_name "givebutter" "contacts" sample_earlier)
    (blob_name "givebutter" "contacts" sample_time) = Lt.
Proof.
  assert (H1 : valid_ts sample_earlier) by solve_valid_ts.
  assert (H2 : valid_ts sample_time) by solve_valid_ts.
  split; [exact H1|]. split; [exact H2|].
  rewrite (blob_name_compare "givebutter" "contacts" sample_earlier sample_time H1 H2).
  vm_compute. reflexivity.
Defined.

Lemma latest_returns_newest_write_witness :
  let s1 := store_all (series "contacts" ([(JArr [], sample_earlier)] ++ [(JArr [JInt 1], sample_time)]))
              sample_env empty_state in
  get_latest_data_from_gcs "contacts" "givebutter" sample_env s1 = (Ok (Some (JArr [JInt 1])), s1).
Proof.
  apply (latest_returns_newest_write "contacts" sample_env empty_state
           [(JArr [], sample_earlier)] (JArr [JInt 1]) sample_time).
  - reflexivity.
  - reflexivity.
  - intros k. reflexivity.
  - solve_valid_ts.
  - constructor; [|constructor]. split; [solve_valid_ts|]. vm_compute. discriminate.
  - intros k _ [x Hx]. unfold empty_state in Hx; simpl in Hx. rewrite lookup_empty in Hx. discriminate.
Defined.

Lemma page_loop_collects_all_pages_witness :
  page_loop 3 two_page_server = Some (Ok [JInt 1; JInt 2], [1%Z; 2%Z]).
Proof.
  rewrite (page_loop_collects_all_pages two_page_server (fun p => [JInt p]) 2 3).
  - reflexivity.
  - lia.
  - intros p Hp. eexists. split; [reflexivity|].
    eexists. split; [reflexivity|]. split; reflexivity.
  - simpl. lia.
Defined.

Lemma page_loop_stops_at_failed_page_witness :
  page_loop 3 flaky_server = Some (Exc "502 Server Error: Bad Gateway", [1%Z; 2%Z]).
Proof.
  rewrite (page_loop_stops_at_failed_page flaky_server (fun p => [JInt p]) 3 2
             "502 Server Error: Bad Gateway" 3).
  - reflexivity.
  - lia.
  - intros p Hp. unfold flaky_server. rewrite (proj2 (Z.eqb_neq p 2)) by lia.
    eexists. split; [reflexivity|]. eexists. split; [reflexivity|]. split; reflexivity.
  - reflexivity.
  - simpl. lia.
Defined.

Lemma page_loop_single_page_witness :
  page_loop 2 metaless_server = Some (Ok [JInt 1], [1%Z]).
Proof.
  apply (page_loop_single_page metaless_server (JObj [("data", JArr [JInt 1])]) [JInt 1] 1 2).
  - reflexivity.
  - eexists. split; [reflexivity|]. split; reflexivity.
  - lia.
  - lia.
Defined.

Lemma enriched_donor_stats_witness :
  exists rs,
    enrich_all (envelope (fixture_contacts ++ [anonymous_contact]) (meta 4 1 4))
      (envelope (fixture_transactions ++ [orphan_transaction]) (meta 4 1 4))
      (envelope fixture_plans (meta 3 1 3)) = Ok rs /\
    Forall2 (donor_record_ok (fixture_transactions ++ [orphan_transaction]) fixture_plans)
      (fixture_contacts ++ [anonymous_contact]) rs /\
    map (fun r => json_field r "stats" ≫= fun st => json_field st "contribution_count") rs =
      [Some (JInt 1); Some (JInt 1); Some (JInt 1); Some (JInt 1)].
Proof.
  eexists. split; [vm_compute; reflexivity|]. split.
  - apply (enriched_donor_stats (envelope (fixture_contacts ++ [anonymous_contact]) (meta 4 1 4))
             (envelope (fixture_transactions ++ [orphan_transaction]) (meta 4 1 4))
             (envelope fixture_plans (meta 3 1 3))).
    + reflexivity.
    + reflexivity.
    + reflexivity.
    + vm_compute. reflexivity.
  - vm_compute. reflexivity.
Defined.

Lemma donor_pages_cover_enriched_witness :
  exists enriched,
    enrich_all (opt_json (latest_snapshot "contacts" sample_env contacts_state))
      (opt_json (latest_snapshot "transactions" sample_env contacts_state))
      (opt_json (latest_snapshot "plans" sample_env contacts_state)) = Ok enriched /\
    length enriched = 3 /\
    concat (map (fun i => page_items (fst (get_donor_data 2 (Z.of_nat i * 2) sample_env contacts_state)))
                (seq 0 2)) = enriched.
Proof.
  eexists. split; [vm_compute; reflexivity|]. split; [vm_compute; reflexivity|].
  apply (donor_pages_cover_enriched 2 2 sample_env contacts_state).
  - lia.
  - vm_compute. reflexivity.
  - vm_compute. reflexivity.
  - apply Nat.leb_le. vm_compute. reflexivity.
Defined.

Lemma donor_data_negative_limit_witness :
  exists enriched,
    enrich_all (opt_json (latest_snapshot "contacts" sample_env contacts_state))
      (opt_json (latest_snapshot "transactions" sample_env contacts_state))
      (opt_json (latest_snapshot "plans" sample_env contacts_state)) = Ok enriched /\
    get_donor_data (-1) 0 sample_env contacts_state =
      (Ok (donor_page (firstn (length enriched - 1) enriched) (Z.of_nat (length enriched)) 1 (-1)
             true (isoformat sample_time)), contacts_state).
Proof.
  eexists. split; [vm_compute; reflexivity|].
  apply (donor_data_negative_limit 1 sample_env contacts_state).
  - lia.
  - vm_compute. reflexivity.
  - vm_compute. reflexivity.
Defined.

Lemma summary_production_default_witness :
  STORAGE_BUCKET production_env = "wlmn-donor-data" /\
  fst (get_donor_summary production_env empty_state) =
    Ok (summary_response (default_summary (isoformat sample_time) "idle") (isoformat sample_time)).
Proof.
  split; [reflexivity|].
  exact (proj1 (summary_production_default production_env empty_state eq_refl
                  (lookup_empty production_summary_name))).
Defined.

Lemma summary_generated_on_first_read_witness :
  exists st,
    summary_core (latest_snapshot "contacts" sample_env contacts_state)
      (latest_snapshot "transactions" sample_env contacts_state)
      (latest_snapshot "plans" sample_env contacts_state) = Ok st /\
    total_donors st = 3%Z /\
    fst (get_donor_summary sample_env contacts_state) =
      Ok (summary_response (build_summary st (isoformat sample_time) "idle" [])
            (isoformat sample_time)).
Proof.
  eexists. split; [vm_compute; reflexivity|]. split; [reflexivity|].
  refine (proj1 (summary_generated_on_first_read sample_env contacts_state _ _ _ _ _ _)).
  - reflexivity.
  - reflexivity.
  - intros k Hk. unfold contacts_state. rewrite store_spec. simpl.
    rewrite lookup_insert_ne; [apply lookup_empty|].
    intros <-. vm_compute in Hk. discriminate.
  - vm_compute. reflexivity.
  - reflexivity.
Defined.

Lemma auth_development_bypass_witness :
  ENVIRONMENT dev_auth = "development" /\ get_authenticated_user dev_auth None = Ok dev_claims.
Proof.
  split; [reflexivity|]. apply auth_development_bypass. reflexivity.
Defined.

Lemma auth_rejects_non_bearer_witness :
  get_authenticated_user prod_auth (Some "bearer good token") =
    Exc "401: Missing or invalid Authorization header".
Proof.
  apply auth_rejects_non_bearer.
  - discriminate.
  - right. eexists. split; [reflexivity|]. reflexivity.
Defined.

Lemma auth_bearer_token_verified_witness :
  get_authenticated_user prod_auth (Some ("Bearer " +:+ "good token")) =
    Ok (JObj [("email", JStr "svc@example.org")]) /\
  get_authenticated_user prod_auth (Some ("Bearer " +:+ "a.b.c")) =
    Exc ("401: Invalid token: " +:+ "Token expired").
Proof.
  split.
  - apply (proj1 (auth_bearer_token_verified prod_auth "good token" ltac:(discriminate))).
    reflexivity.
  - apply (proj2 (auth_bearer_token_verified prod_auth "a.b.c" ltac:(discriminate))).
    reflexivity.
Defined.

Lemma sync_cycle_success_witness :
  exists s1, sync_all_data sample_env empty_state = (Ok tt, s1) /\
    sync_status s1 = "completed" /\ last_sync_time s1 = Some sample_time.
Proof.
  destruct (sync_cycle_success sample_env empty_state) as (s1 & E & Hs & Hl & _).
  - intros k. reflexivity.
  - discriminate.
  - exists s1. split; [exact E|]. split; [exact Hs|exact Hl].
Defined.

Lemma no_key_cycle_summary_witness :
  exists s1, sync_all_data sample_env empty_state = (Ok tt, s1) /\
    sync_status s1 = "completed" /\
    fst (get_donor_summary sample_env s1) =
      Ok (summary_response (build_summary mock_stats (isoformat sample_time) "syncing" [])
            (isoformat sample_time)).
Proof.
  apply (no_key_cycle_summary sample_env empty_state).
  - reflexivity.
  - discriminate.
  - reflexivity.
  - intros k. reflexivity.
  - discriminate.
  - intros dt k _ _. apply lookup_empty.
Defined.

Lemma production_summary_served_witness :
  get_donor_summary production_env production_summary_state =
    (Ok (summary_response (production_summary production_summary_fields 18600)
           (isoformat sample_time)), production_summary_state).
Proof.
  apply production_summary_served.
  - reflexivity.
  - reflexivity.
  - unfold production_summary_state. simpl. apply lookup_singleton_Some. split; reflexivity.
  - reflexivity.
Defined.

Lemma production_contacts_wrapped_witness :
  latest_snapshot "contacts" production_env production_contacts_state =
    Some (JObj [("data", JArr fixture_contacts)]).
Proof.
  apply (production_contacts_wrapped production_env production_contacts_state
           [("contacts", JArr fixture_contacts)]).
  - reflexivity.
  - reflexivity.
  - unfold production_contacts_state. simpl. apply lookup_singleton_Some. split; reflexivity.
  - reflexivity.
Defined.
